(** * Seedable sampler factories of the random-number library

    A shallow embedding of the distribution factories
    ([base/erlang/lib/factory.js], [base/kumaraswamy/lib/factory.js]),
    of the generator handle they return and of the strided fill contract,
    with the properties of the handle's state protocol proved over it.

    JavaScript numbers are IEEE-754 doubles and are modelled by Rocq's
    primitive floats; objects that are mutated in place (typed arrays, the
    closure variables of a generator) live in an explicit store. *)

From Stdlib Require Import ZArith Floats List.
From stdpp Require Import gmap strings list pretty.

Set Warnings "-register-all,-inexact-float".

(* ================================================================== *)
(** ** Numbers *)
(* ================================================================== *)

Module Number.

Abbreviation number := float (only parsing).

Definition NaN : number := nan.

(** [@stdlib/math/base/assert/is-nan]: [return ( x !== x );]. *)
Definition isnan (x : number) : bool := negb (PrimFloat.eqb x x).

(** [@stdlib/math/base/assert/is-integer]: [return ( floor(x) === x );].
    [floor] fixes the infinities and the zeros, and a finite double
    [m * 2^e] exactly when it has no fractional bits. *)
Definition isInteger (x : number) : bool :=
  match Prim2SF x with
  | S754_zero _ => true
  | S754_infinity _ => true
  | S754_nan => false
  | S754_finite _ m e => (0 <=? e)%Z || (Z.pos m mod 2 ^ (- e) =? 0)%Z
  end.

(** [@stdlib/math/base/assert/is-positive-integer]:
    [return ( floor(x) === x && x > 0.0 );]. *)
Definition isPositiveInteger (x : number) : bool :=
  isInteger x && PrimFloat.ltb 0 x.

(** [x <= 0.0] *)
Definition nonpositive (x : number) : bool := PrimFloat.leb x 0.

(** [x > 0.0] *)
Definition positive (x : number) : bool := PrimFloat.ltb 0 x.

End Number.
Import Number.

(* ================================================================== *)
(** ** Values, the store and the evaluation monad *)
(* ================================================================== *)

(** Addresses of typed arrays and of generator closures. *)
Abbreviation loc := nat (only parsing).
Abbreviation gid := nat (only parsing).

Inductive error : Type :=
| TypeError (msg : string)
| RangeError (msg : string).

Section Host.

(** The part of the host environment that foreign callables (a user's
    [prng] option, the entropy behind a default seed) read and update. *)
Context {E : Type}.

(** The JavaScript values that reach a factory as arguments or leave a
    handle as property values.  A [Uint32Array] is a reference into the
    store; plain objects map own property names to values. *)
Inductive value : Type :=
| VUndefined
| VNull
| VBool (b : bool)
| VNumber (x : number)
| VString (s : string)
| VFunction (f : E -> number * E)
| VUint32Array (l : loc)
| VArray (xs : list value)
| VObject (props : gmap string value).

(** [@stdlib/assert/is-plain-object] *)
Definition isObject (v : value) : bool :=
  match v with VObject _ => true | _ => false end.

(** [@stdlib/assert/is-function] *)
Definition isFunction (v : value) : bool :=
  match v with VFunction _ => true | _ => false end.

(** [@stdlib/assert/has-own-property] *)
Definition hasOwnProp (v : value) (name : string) : bool :=
  match v with
  | VObject props => bool_decide (is_Some (props !! name))
  | _ => false
  end.

(** Property read [v.name] on a plain object without inherited
    properties of that name: a missing property reads as [undefined].
    (The factories only read properties of values that passed [isObject]
    or of [undefined] guarded by [&&].) *)
Definition getProp (v : value) (name : string) : value :=
  match v with
  | VObject props => default VUndefined (props !! name)
  | _ => VUndefined
  end.

(** ToBoolean, as used by [if ( opts && opts.prng )]. *)
Definition truthy (v : value) : bool :=
  match v with
  | VUndefined | VNull => false
  | VBool b => b
  | VNumber x => negb (isnan x) && negb (PrimFloat.eqb x 0)
  | VString s => negb (String.eqb s "")
  | VFunction _ | VUint32Array _ | VArray _ | VObject _ => true
  end.

(** [k === void 0] *)
Definition isUndefined (v : value) : bool :=
  match v with VUndefined => true | _ => false end.

(** The closure variables of one generator made by the base factory:
    the array holding its state and whether that array is shared with
    its creator ([copy: false]). *)
Record Generator : Type := mkGenerator {
  STATE : loc;
  shared : bool
}.

Record World : Type := mkWorld {
  heap : gmap loc (list Z);      (* contents of the Uint32Arrays *)
  gens : gmap gid Generator;     (* closures of the base generators *)
  env : E;                       (* host environment *)
  calls : nat                    (* how often a uniform source was invoked *)
}.

Definition with_heap (h : gmap loc (list Z)) (w : World) : World :=
  mkWorld h (gens w) (env w) (calls w).
Definition with_gens (g : gmap gid Generator) (w : World) : World :=
  mkWorld (heap w) g (env w) (calls w).
Definition with_env (e : E) (w : World) : World :=
  mkWorld (heap w) (gens w) e (calls w).
Definition tick (w : World) : World :=
  mkWorld (heap w) (gens w) (env w) (S (calls w)).

(** A call either returns normally or throws; both leave a store. *)
Inductive completion (A : Type) : Type :=
| Return (a : A) (w : World)
| Throw (e : error) (w : World).
Arguments Return {A} a w.
Arguments Throw {A} e w.

Definition M (A : Type) : Type := World -> completion A.

Definition ret {A} (a : A) : M A := fun w => Return a w.
Definition throw {A} (e : error) : M A := fun w => Throw e w.
Definition bind {A B} (m : M A) (f : A -> M B) : M B :=
  fun w => match m w with
           | Return a w' => f a w'
           | Throw e w' => Throw e w'
           end.

Definition returned {A} (c : completion A) : option A :=
  match c with Return a _ => Some a | Throw _ _ => None end.
Definition world_of {A} (c : completion A) : World :=
  match c with Return _ w | Throw _ w => w end.
Definition throws {A} (c : completion A) : bool :=
  match c with Return _ _ => false | Throw _ _ => true end.

End Host.

Arguments value : clear implicits.
Arguments World : clear implicits.
Arguments completion : clear implicits.
Arguments M : clear implicits.
Arguments Return {E A} a w.
Arguments Throw {E A} e w.

Declare Scope js_scope.
Delimit Scope js_scope with js.
Notation "x <- m ;; k" := (bind m (fun x => k))
  (at level 100, m at next level, right associativity) : js_scope.
Notation "m ;;; k" := (bind m (fun _ => k))
  (at level 100, right associativity) : js_scope.
Open Scope js_scope.

(* ================================================================== *)
(** ** The base generator *)
(* ================================================================== *)

(** Modelled from the spec: the bit generator behind
    [require( '@stdlib/random/base/mt19937' )], whose sources are missing.
    Spec 4.1/4.2: [seed(Seed) -> GeneratorState], [next(state) -> (uint,
    state')] "a pure deterministic function of state", a validity
    predicate on states, and the normalized view mapping a draw to
    [[0,1)].  The recurrence itself is left open: every result below holds
    for any instance. *)
Class BitGenerator (E : Type) : Type := {
  (** the words of a [seed] option, [None] for a malformed seed *)
  seed_words : value E -> option (list Z);
  (** the seeding algorithm *)
  init_state : list Z -> list Z;
  (** the validity predicate of a state array *)
  verify_state : list Z -> bool;
  (** the seed recorded in a state array *)
  state_seed : list Z -> list Z;
  (** one step of the recurrence and its raw output *)
  next : list Z -> Z * list Z;
  (** one step of the recurrence, output mapped to [[0,1)] *)
  next_normalized : list Z -> number * list Z;
  (** a seed drawn from the host's entropy when none is given *)
  random_seed : E -> list Z * E
}.

Definition num_of_nat (n : nat) : number :=
  PrimFloat.of_uint63 (Uint63.of_Z (Z.of_nat n)).
Definition num_of_Z (z : Z) : number :=
  PrimFloat.of_uint63 (Uint63.of_Z z).

Section Base.

Context {E : Type} `{BG : BitGenerator E}.

Local Abbreviation M := (M E).
Local Abbreviation value := (value E).

(** [new Uint32Array( ... )] filled with [st]. *)
Definition alloc (st : list Z) : M loc :=
  fun w => let l := fresh (dom (heap w)) in
           Return l (with_heap (<[l := st]> (heap w)) w).

(** Contents of the array at [l].  A reference the store does not hold
    cannot arise from the operations below; reading one throws. *)
Definition read (l : loc) : M (list Z) :=
  fun w => match heap w !! l with
           | Some st => Return st w
           | None => Throw (TypeError "dangling array reference") w
           end.

(** [gcopy( st.length, st, 1, ARRAY, 1 )] over the whole array at [l]. *)
Definition write (l : loc) (st : list Z) : M unit :=
  fun w => Return tt (with_heap (<[l := st]> (heap w)) w).

Definition new_generator (g : Generator) : M gid :=
  fun w => let i := fresh (dom (gens w)) in
           Return i (with_gens (<[i := g]> (gens w)) w).

Definition generator (i : gid) : M Generator :=
  fun w => match gens w !! i with
           | Some g => Return g w
           | None => Throw (TypeError "dangling generator reference") w
           end.

Definition set_generator (i : gid) (g : Generator) : M unit :=
  fun w => Return tt (with_gens (<[i := g]> (gens w)) w).

Definition entropy : M (list Z) :=
  fun w => let '(sd, e) := random_seed (env w) in Return sd (with_env e w).

(** A generator owning a fresh array holding [st]. *)
Definition create (st : list Z) : M gid :=
  l <- alloc st ;; new_generator (mkGenerator l false).

(** Modelled from the spec: the base factory [randu( [options] )]
    ([mt19937.factory], sources missing).  Spec 4.3: "From a seed value:
    derive initial state via BitGenerator.seed.  From an explicit
    GeneratorState: validate via StateCodec; if copy is requested (default
    true), store an independent snapshot; if not, store a reference and
    mark the handle as participating in shared state"; a provided state
    takes precedence over a seed; bad options are configuration errors. *)
Definition randu (args : list value) : M gid :=
  match args with
  | [] => sd <- entropy ;; create (init_state sd)
  | options :: _ =>
    if negb (isObject options) then
      throw (TypeError "invalid argument. Options argument must be an object.")
    else
      cp <- (if hasOwnProp options "copy" then
               match getProp options "copy" with
               | VBool b => ret b
               | _ => throw (TypeError "invalid option. `copy` option must be a boolean.")
               end
             else ret true) ;;
      if hasOwnProp options "state" then
        match getProp options "state" with
        | VUint32Array l =>
          st <- read l ;;
          if verify_state st then
            if (cp : bool) then create st
            else new_generator (mkGenerator l true)
          else throw (RangeError "invalid option. `state` option is not a valid state.")
        | _ => throw (TypeError "invalid option. `state` option must be a Uint32Array.")
        end
      else if hasOwnProp options "seed" then
        match seed_words (getProp options "seed") with
        | Some sd => create (init_state sd)
        | None => throw (TypeError "invalid option. `seed` option is not a valid seed.")
        end
      else sd <- entropy ;; create (init_state sd)
  end.

(** Modelled from the spec: [rand()] and [rand.normalized()], one draw.
    Spec 3: the state is "mutated in place on every draw". *)
Definition raw (i : gid) : M number :=
  g <- generator i ;;
  st <- read (STATE g) ;;
  write (STATE g) (snd (next st)) ;;;
  ret (num_of_Z (fst (next st))).

Definition normalized (i : gid) : M number :=
  g <- generator i ;;
  st <- read (STATE g) ;;
  write (STATE g) (snd (next_normalized st)) ;;;
  ret (fst (next_normalized st)).

(** Modelled from the spec: the getters of the base generator.  A read
    of [.state] is "a snapshot (independent copy)". *)
Definition mt_state (i : gid) : M value :=
  g <- generator i ;;
  st <- read (STATE g) ;;
  l <- alloc st ;;
  ret (VUint32Array l).

Definition mt_seed (i : gid) : M value :=
  g <- generator i ;;
  st <- read (STATE g) ;;
  l <- alloc (state_seed st) ;;
  ret (VUint32Array l).

Definition mt_seedLength (i : gid) : M value :=
  g <- generator i ;;
  st <- read (STATE g) ;;
  ret (VNumber (num_of_nat (length (state_seed st)))).

Definition mt_stateLength (i : gid) : M value :=
  g <- generator i ;;
  st <- read (STATE g) ;;
  ret (VNumber (num_of_nat (length st))).

Definition mt_byteLength (i : gid) : M value :=
  g <- generator i ;;
  st <- read (STATE g) ;;
  ret (VNumber (num_of_nat (4 * length st))).

(** Modelled from the spec: the [.state] setter of the base generator.
    Spec 4.3 and the packages' notes: an invalid state is a configuration
    error; a generator with shared state updates the common storage when
    the new array has the same length and otherwise "does not update the
    existing shared state and, instead, points to the newly provided state
    array"; a generator owning its state stores a copy of the contents. *)
Definition mt_set_state (i : gid) (s : value) : M unit :=
  match s with
  | VUint32Array ls =>
    st <- read ls ;;
    if negb (verify_state st) then
      throw (RangeError "invalid argument. Must provide a valid state.")
    else
      g <- generator i ;;
      cur <- read (STATE g) ;;
      if shared g then
        if Nat.eqb (length st) (length cur) then write (STATE g) st
        else set_generator i (mkGenerator ls true)
      else write (STATE g) st
  | _ => throw (TypeError "invalid argument. Must provide a Uint32Array.")
  end.

End Base.

(* ================================================================== *)
(** ** Uniform sources and distribution transforms *)
(* ================================================================== *)

(** Modelled from the spec: a distribution transform ([./erlang.js],
    [./kumaraswamy.js], sources missing) is "a pure function
    [(uniformSource, params...) -> sample]": all it does with the source
    is ask it for draws.  [Draw k] asks for one draw [u] and continues as
    [k u]; [Done x] returns the sample [x]. *)
Inductive Draws : Type :=
| Done (x : number)
| Draw (k : number -> Draws).

Section Sources.

Context {E : Type} `{BG : BitGenerator E}.

Local Abbreviation M := (M E).
Local Abbreviation value := (value E).

(** What the closure variable [rand] of a factory can hold. *)
Inductive uniform : Type :=
| Foreign (f : E -> number * E)   (* [opts.prng] *)
| Raw (i : gid)                   (* [randu( ... )] *)
| Normalized (i : gid)            (* [randu( ... ).normalized] *)
| NoSource.                       (* [undefined] *)

(** [opts.prng] once [isFunction] has accepted it. *)
Definition as_uniform (v : value) : uniform :=
  match v with VFunction f => Foreign f | _ => NoSource end.

(** [rand.normalized] *)
Definition dot_normalized (rand : uniform) : uniform :=
  match rand with Raw i => Normalized i | _ => NoSource end.

(** [rand()] *)
Definition call_rand (rand : uniform) : M number :=
  match rand with
  | Foreign f =>
    fun w => Return (fst (f (env w))) (tick (with_env (snd (f (env w))) w))
  | Raw i => fun w => raw i (tick w)
  | Normalized i => fun w => normalized i (tick w)
  | NoSource => throw (TypeError "rand is not a function")
  end.

(** [transform( rand, a, b )] for the transform's draw tree [d]. *)
Fixpoint sample (rand : uniform) (d : Draws) : M number :=
  match d with
  | Done x => ret x
  | Draw k => u <- call_rand rand ;; sample rand (k u)
  end.

(** ToNumber on the values that pass a factory's validation. *)
Definition to_number (v : value) : number :=
  match v with VNumber x => x | _ => NaN end.

End Sources.

(* ================================================================== *)
(** ** The distribution factory *)
(* ================================================================== *)

(** Which of its two inner functions a factory returned. *)
Inductive variant : Type :=
| bound      (* [erlang1], [kumaraswamy1]: parameters fixed at creation *)
| percall.   (* [erlang2], [kumaraswamy2]: parameters given at each call *)

(** The function object a factory returns, as the closure it is: the
    variables it captured and the properties that were defined on it. *)
Record Handle {E : Type} : Type := mkHandle {
  prng : variant;
  NAME : string;
  param1 : value E;        (* [k], [a]: [undefined] unless bound *)
  param2 : value E;        (* [lambda], [b] *)
  rand : @uniform E;       (* the uniform source the samples come from *)
  PRNG : @uniform E;       (* property [PRNG] *)
  opaque : bool            (* [true] when the [null] properties were defined *)
}.
Arguments Handle : clear implicits.

Module Factory.
Section Factory.

Context {E : Type} `{BG : BitGenerator E}.

Local Abbreviation M := (M E).
Local Abbreviation value := (value E).
Local Abbreviation Handle := (Handle E).

(** What differs between [erlang/lib/factory.js] and
    [kumaraswamy/lib/factory.js]: the name, [./validate.js], and the two
    inner samplers. *)
Variable name : string.
Variable validate : value -> value -> option error.
Variable sampler1 : @uniform E -> value -> value -> M number.
Variable sampler2 : @uniform E -> number -> number -> M number.

(** The block both option-taking branches of [factory] repeat:
<<
  if ( !isObject( opts ) ) { throw new TypeError( ... ); }
  if ( hasOwnProp( opts, 'prng' ) ) {
      if ( !isFunction( opts.prng ) ) { throw new TypeError( ... ); }
      rand = opts.prng;
  } else {
      rand = randu( opts );
  }
>> *)
Definition resolve (opts : value) : M (@uniform E) :=
  if negb (isObject opts) then
    throw (TypeError "invalid argument. Options argument must be an object.")
  else if hasOwnProp opts "prng" then
    if negb (isFunction (getProp opts "prng")) then
      throw (TypeError "invalid option. `prng` option must be a pseudorandom number generator function.")
    else ret (as_uniform (getProp opts "prng"))
  else i <- randu [opts] ;; ret (Raw i).

(** The tail of [factory], from [if ( k === void 0 )] on. *)
Definition finish (k lambda opts : value) (rand0 : @uniform E) : Handle :=
  let f := if isUndefined k then percall else bound in
  if truthy opts && truthy (getProp opts "prng") then
    mkHandle E f name k lambda rand0 rand0 true
  else
    mkHandle E f name k lambda (dot_normalized rand0) rand0 false.

(** [factory()], applied to its [arguments]. *)
Definition factory (arguments : list value) : M Handle :=
  match arguments with
  | [] =>
    i <- randu [] ;;
    ret (finish VUndefined VUndefined VUndefined (Raw i))
  | [opts] =>
    rand0 <- resolve opts ;;
    ret (finish VUndefined VUndefined opts rand0)
  | k :: lambda :: rest =>
    match validate k lambda with
    | Some err => throw err
    | None =>
      match rest with
      | opts :: _ =>
        rand0 <- resolve opts ;;
        ret (finish k lambda opts rand0)
      | [] =>
        i <- randu [] ;;
        ret (finish k lambda VUndefined (Raw i))
      end
    end
  end.

(** Property reads of the base generator held in [rand]; a foreign
    callable or [undefined] has none of them. *)
Definition base_prop (get : gid -> M value) (r : @uniform E) : M value :=
  match r with
  | Raw i | Normalized i => get i
  | Foreign _ => ret VUndefined
  | NoSource => throw (TypeError "cannot read properties of undefined")
  end.

Definition getSeed (h : Handle) : M value := base_prop mt_seed (rand h).
Definition getSeedLength (h : Handle) : M value := base_prop mt_seedLength (rand h).
Definition getStateLength (h : Handle) : M value := base_prop mt_stateLength (rand h).
Definition getStateSize (h : Handle) : M value := base_prop mt_byteLength (rand h).
Definition getState (h : Handle) : M value := base_prop mt_state (rand h).

(** [rand.state = s;] *)
Definition setState (h : Handle) (s : value) : M unit :=
  match rand h with
  | Raw i | Normalized i => mt_set_state i s
  | Foreign _ => ret tt
  | NoSource => throw (TypeError "cannot set properties of undefined")
  end.

(** [@stdlib/array/to-json] on a [Uint32Array]:
    [{ 'type': 'Uint32Array', 'data': [ ... ] }]. *)
Definition typedarray2json (v : value) : M value :=
  match v with
  | VUint32Array l =>
    st <- read l ;;
    ret (VObject {[ "type" := VString "Uint32Array";
                    "data" := VArray (map (fun z => VNumber (num_of_Z z)) st) ]})
  | _ => throw (TypeError "invalid argument. Must provide a typed array.")
  end.

Definition toJSON (h : Handle) : M value :=
  st <- getState h ;;
  json <- typedarray2json st ;;
  ret (VObject {[ "type" := VString "PRNG";
                  "name" := VString (NAME h);
                  "state" := json;
                  "params" := if isUndefined (param1 h) then VArray []
                              else VArray [param1 h; param2 h] ]}).

(** The properties as [factory] defined them: constants and
    [constantFunction( null )] / [noop] on an opaque handle, the accessors
    above otherwise. *)
Definition seed (h : Handle) : M value :=
  if opaque h then ret VNull else getSeed h.
Definition seedLength (h : Handle) : M value :=
  if opaque h then ret VNull else getSeedLength h.
Definition state (h : Handle) : M value :=
  if opaque h then ret VNull else getState h.
Definition set_state (h : Handle) (s : value) : M unit :=
  if opaque h then ret tt else setState h s.
Definition stateLength (h : Handle) : M value :=
  if opaque h then ret VNull else getStateLength h.
Definition byteLength (h : Handle) : M value :=
  if opaque h then ret VNull else getStateSize h.
Definition call_toJSON (h : Handle) : M value :=
  if opaque h then ret VNull else toJSON h.

(** Calling the returned function with two numbers. *)
Definition call (h : Handle) (x y : number) : M number :=
  match prng h with
  | bound => sampler1 (rand h) (param1 h) (param2 h)
  | percall => sampler2 (rand h) x y
  end.

(** [n] calls in a row, with the arguments of each call. *)
Fixpoint calls_of (h : Handle) (args : list (number * number)) : M (list number) :=
  match args with
  | [] => ret []
  | (x, y) :: rest =>
    v <- call h x y ;;
    vs <- calls_of h rest ;;
    ret (v :: vs)
  end.

End Factory.
End Factory.

(** The options argument of a factory call, if it has one. *)
Definition options_of {E} (arguments : list (value E)) : value E :=
  match arguments with
  | [opts] => opts
  | _ :: _ :: opts :: _ => opts
  | _ => VUndefined
  end.

(* ================================================================== *)
(** ** [base/erlang/lib/factory.js] *)
(* ================================================================== *)

Module Erlang.
Section Erlang.

Context {E : Type} `{BG : BitGenerator E}.

(** Modelled from the spec: the transform [./erlang.js], sources missing. *)
Variable erlang0 : number -> number -> Draws.

(** Modelled from the spec: [./validate.js], sources missing.  The
    factory documents what it rejects: "[k] must be a positive integer",
    "[lambda] must be a positive number", each a [TypeError]. *)
Definition validate (k lambda : value E) : option error :=
  match k with
  | VNumber x =>
    if isPositiveInteger x then
      match lambda with
      | VNumber y =>
        if Number.positive y then None
        else Some (TypeError "invalid argument. `lambda` must be a positive number.")
      | _ => Some (TypeError "invalid argument. `lambda` must be a positive number.")
      end
    else Some (TypeError "invalid argument. `k` must be a positive integer.")
  | _ => Some (TypeError "invalid argument. `k` must be a positive integer.")
  end.

Definition erlang1 (rand : @uniform E) (k lambda : value E) : M E number :=
  sample rand (erlang0 (to_number k) (to_number lambda)).

Definition erlang2 (rand : @uniform E) (k lambda : number) : M E number :=
  if isnan k || isnan lambda || negb (isPositiveInteger k) || nonpositive lambda
  then ret NaN
  else sample rand (erlang0 k lambda).

Definition factory : list (value E) -> M E (Handle E) :=
  Factory.factory "erlang" validate.

Definition call : Handle E -> number -> number -> M E number :=
  Factory.call erlang1 erlang2.

End Erlang.
End Erlang.

(* ================================================================== *)
(** ** [base/kumaraswamy/lib/factory.js] *)
(* ================================================================== *)

Module Kumaraswamy.
Section Kumaraswamy.

Context {E : Type} `{BG : BitGenerator E}.

(** Modelled from the spec: the transform [./kumaraswamy.js], sources
    missing. *)
Variable kumaraswamy0 : number -> number -> Draws.

(** Modelled from the spec: [./validate.js], sources missing.  The
    factory documents what it rejects: "[a] must be a positive number",
    "[b] must be a positive number", each a [TypeError]. *)
Definition validate (a b : value E) : option error :=
  match a with
  | VNumber x =>
    if Number.positive x then
      match b with
      | VNumber y =>
        if Number.positive y then None
        else Some (TypeError "invalid argument. `b` must be a positive number.")
      | _ => Some (TypeError "invalid argument. `b` must be a positive number.")
      end
    else Some (TypeError "invalid argument. `a` must be a positive number.")
  | _ => Some (TypeError "invalid argument. `a` must be a positive number.")
  end.

Definition kumaraswamy1 (rand : @uniform E) (a b : value E) : M E number :=
  sample rand (kumaraswamy0 (to_number a) (to_number b)).

Definition kumaraswamy2 (rand : @uniform E) (a b : number) : M E number :=
  if isnan a || isnan b || nonpositive a || nonpositive b
  then ret NaN
  else sample rand (kumaraswamy0 a b).

Definition factory : list (value E) -> M E (Handle E) :=
  Factory.factory "kumaraswamy" validate.

Definition call : Handle E -> number -> number -> M E number :=
  Factory.call kumaraswamy1 kumaraswamy2.

End Kumaraswamy.
End Kumaraswamy.

(* ================================================================== *)
(** ** A concrete instance *)
(* ================================================================== *)

(** A small generator to run the definitions on: a Lehmer recurrence
    (multiplier 16807, modulus 2^31-1) whose state array is the current
    word followed by the seed it was made from, in a host whose only
    state is a counter. *)
Module Lehmer.

Local Open Scope Z_scope.

Definition Z_of_number (x : number) : Z :=
  match Prim2SF x with
  | S754_finite false m e =>
    if 0 <=? e then Z.pos m * 2 ^ e else Z.pos m / 2 ^ (- e)
  | _ => 0
  end.

Definition modulus : Z := 2147483647.

Definition step (x : Z) : Z := (16807 * x) mod modulus.

Definition seed_of (v : value nat) : option (list Z) :=
  match v with
  | VNumber x =>
    if isPositiveInteger x && PrimFloat.ltb x 2147483647
    then Some [Z_of_number x] else None
  | _ => None
  end.

Definition start (sd : list Z) : list Z :=
  (foldr Z.add 0 sd mod (modulus - 1) + 1) :: sd.

Definition valid (st : list Z) : bool :=
  match st with
  | x :: _ => (0 <? x)%Z && (x <? modulus)%Z
  | [] => false
  end.

Definition advance (st : list Z) : list Z :=
  match st with
  | x :: sd => step x :: sd
  | [] => []
  end.

Definition output (st : list Z) : Z :=
  match st with
  | x :: _ => step x
  | [] => 0
  end.

#[global] Instance generator : BitGenerator nat := {|
  seed_words := seed_of;
  init_state := start;
  verify_state := valid;
  state_seed := tail;
  next st := (output st, advance st);
  next_normalized st :=
    (PrimFloat.div (num_of_Z (output st - 1)) (num_of_Z (modulus - 1)), advance st);
  random_seed e := ([Z.of_nat e + 1], S e)
|}.

(** A foreign uniform source: the host counter scaled into [[0,1)]. *)
Definition counter (e : nat) : number * nat :=
  (PrimFloat.div (num_of_nat (e mod 16)%nat) 16, S e).

(** Stand-ins for the two transforms. *)
Definition erlang0 (k lambda : number) : Draws :=
  Draw (fun u => Draw (fun v => Done (PrimFloat.div (PrimFloat.add u v) lambda))).

Definition kumaraswamy0 (a b : number) : Draws :=
  Draw (fun u => Done (PrimFloat.div (PrimFloat.mul u a) (PrimFloat.add a b))).

Definition empty_world : World nat := mkWorld ∅ ∅ 0%nat 0%nat.

End Lehmer.

(* ================================================================== *)
(** ** Strided fills *)
(* ================================================================== *)

Module Strided.

(** Modelled from the spec: the strided fill engine ([strided/*/lib],
    sources missing; only its documentation is at hand).  Spec 4.5: "for
    logical index i from 0 to N-1 [...] resolve each parameter's address
    as [paramOffset + i*paramStride], resolve output address as
    [outOffset + i*outStride], read parameter values, invoke sampler, write
    result to output address", every access routed "through the get/set
    capability" of the container, with no bounds validation. *)
Class Indexable (A : Type) : Type := {
  get : A -> Z -> number;
  set : A -> Z -> number -> A
}.

(** A generic array-like object: any integer index can be read and
    written; an index never written reads as [undefined], that is [NaN]
    once used as a number. *)
#[global] Instance buffer_indexable : Indexable (gmap Z number) := {|
  get a i := default NaN (a !! i);
  set a i v := <[i := v]> a
|}.

(** Modelled from the spec: the container of the view-offset convention
    ("offsets are implicit in the underlying buffer view"), a typed-array
    view as [new Float64Array( v0.buffer, v0.BYTES_PER_ELEMENT*3 )] of the
    documented call.  A view has [length_] elements, at the indices
    [0 .. length_-1]: element [j] is element [start + j] of the buffer.
    Like any typed array it has no other element: a read outside them
    gives [undefined] ([NaN] once used as a number) and a write outside
    them does nothing. *)
Record View : Type := mkView {
  buffer : gmap Z number;
  start : Z;
  length_ : Z
}.

Definition in_view (a : View) (j : Z) : bool :=
  ((0 <=? j) && (j <? length_ a))%Z.

#[global] Instance view_indexable : Indexable View := {|
  get a j := if in_view a j then get (buffer a) (start a + j)%Z else NaN;
  set a j v :=
    if in_view a j
    then mkView (set (buffer a) (start a + j)%Z v) (start a) (length_ a)
    else a
|}.

Section Fill.

Context {E : Type} {A B Out : Type}.
Context `{IA : Indexable A} `{IB : Indexable B} `{IO : Indexable Out}.

(** The per-call sampler of the distribution, closed over its uniform
    source. *)
Variable sampler : number -> number -> M E number.

Local Open Scope Z_scope.

(** The loop [for ( i = 0; i < N; i++ )], with [n] iterations left. *)
Fixpoint loop (n : nat) (i : Z)
    (a : A) (sa oa : Z) (b : B) (sb ob : Z) (out : Out) (so oo : Z) : M E Out :=
  match n with
  | 0%nat => ret out
  | S n' =>
    v <- sampler (get a (oa + i * sa)) (get b (ob + i * sb)) ;;
    loop n' (i + 1) a sa oa b sb ob (set out (oo + i * so) v) so oo
  end.

(** [dist.ndarray( N, a, sa, oa, b, sb, ob, out, so, oo )] *)
Definition ndarray (N : Z)
    (a : A) (sa oa : Z) (b : B) (sb ob : Z) (out : Out) (so oo : Z) : M E Out :=
  loop (Z.to_nat N) 0 a sa oa b sb ob out so oo.

(** Modelled from the spec: the first index of the view-offset form
    (sources missing).  Indexing is "relative to the first index" for a
    positive stride; with a negative stride the walk starts at the far
    end, index [(1-N)*stride], and ends at index 0, so that the
    documented call [t( 3, v1, -1, out, 1 )] on the three-element view
    [v1] reads [v1[2]], [v1[1]], [v1[0]] and nothing before the view. *)
Definition stride2offset (N stride : Z) : Z :=
  if 0 <? stride then 0 else (1 - N) * stride.

(** [dist( N, a, sa, b, sb, out, so )]: the explicit-offset form from the
    first index of each argument. *)
Definition strided (N : Z)
    (a : A) (sa : Z) (b : B) (sb : Z) (out : Out) (so : Z) : M E Out :=
  ndarray N a sa (stride2offset N sa) b sb (stride2offset N sb)
          out so (stride2offset N so).

(** What a fill does, told apart: the samples drawn for the logical
    indices [i], [i+1], ... ([n] of them), the slots addressed for them,
    and the writes of the former to the latter, in that order. *)
Fixpoint samples (n : nat) (i : Z)
    (a : A) (sa oa : Z) (b : B) (sb ob : Z) : M E (list number) :=
  match n with
  | 0%nat => ret []
  | S n' =>
    v <- sampler (get a (oa + i * sa)) (get b (ob + i * sb)) ;;
    vs <- samples n' (i + 1) a sa oa b sb ob ;;
    ret (v :: vs)
  end.

Fixpoint slots (n : nat) (i so oo : Z) : list Z :=
  match n with
  | 0%nat => []
  | S n' => (oo + i * so) :: slots n' (i + 1) so oo
  end.

Fixpoint write (out : Out) (ks : list Z) (vs : list number) : Out :=
  match ks, vs with
  | k :: ks', v :: vs' => write (set out k v) ks' vs'
  | _, _ => out
  end.

(** The start [dist.ndarray] needs to address, in a whole array, the slots
    the view-offset form addresses through a view that starts at [o]. *)
Definition matching_offset (N s o : Z) : Z :=
  if s <? 0 then o + (1 - N) * s else o.

End Fill.

End Strided.

(* ================================================================== *)
(** ** Vocabulary of the properties *)
(* ================================================================== *)

(** The two distributions whose factories are modelled above. *)
Inductive distribution : Type := erlang | kumaraswamy.

Section Vocabulary.

Context {E : Type} `{BG : BitGenerator E}.

(** The transforms, one per distribution. *)
Variable transform : distribution -> number -> number -> Draws.

Definition factory_of (d : distribution) : list (value E) -> M E (Handle E) :=
  match d with
  | erlang => Erlang.factory
  | kumaraswamy => Kumaraswamy.factory
  end.

Definition validate_of (d : distribution) :
    value E -> value E -> option error :=
  match d with
  | erlang => Erlang.validate
  | kumaraswamy => Kumaraswamy.validate
  end.

Definition name_of (d : distribution) : string :=
  match d with
  | erlang => "erlang"
  | kumaraswamy => "kumaraswamy"
  end.

Definition call_of (d : distribution) : Handle E -> number -> number -> M E number :=
  match d with
  | erlang => Erlang.call (transform erlang)
  | kumaraswamy => Kumaraswamy.call (transform kumaraswamy)
  end.

Definition calls_of (d : distribution) :
    Handle E -> list (number * number) -> M E (list number) :=
  match d with
  | erlang =>
    Factory.calls_of (Erlang.erlang1 (transform erlang))
                     (Erlang.erlang2 (transform erlang))
  | kumaraswamy =>
    Factory.calls_of (Kumaraswamy.kumaraswamy1 (transform kumaraswamy))
                     (Kumaraswamy.kumaraswamy2 (transform kumaraswamy))
  end.

(** The per-call sampler of a distribution over a uniform source. *)
Definition sampler_of (d : distribution) :
    @uniform E -> number -> number -> M E number :=
  match d with
  | erlang => Erlang.erlang2 (transform erlang)
  | kumaraswamy => Kumaraswamy.kumaraswamy2 (transform kumaraswamy)
  end.

(** Invalid per-call parameters: a [NaN], a non-positive shape or rate,
    a non-integer Erlang shape. *)
Definition invalid_parameters (d : distribution) (x y : number) : Prop :=
  match d with
  | erlang =>
    isnan x = true \/ isnan y = true \/
    nonpositive x = true \/ nonpositive y = true \/ isInteger x = false
  | kumaraswamy =>
    isnan x = true \/ isnan y = true \/
    nonpositive x = true \/ nonpositive y = true
  end.

Definition is_positive_number (v : value E) : bool :=
  match v with VNumber x => Number.positive x | _ => false end.

Definition is_positive_integer (v : value E) : bool :=
  match v with VNumber x => isPositiveInteger x | _ => false end.

(** Invalid bound parameters: what the factories document as rejected. *)
Definition invalid_bound (d : distribution) (p q : value E) : Prop :=
  match d with
  | erlang => is_positive_integer p = false \/ is_positive_number q = false
  | kumaraswamy => is_positive_number p = false \/ is_positive_number q = false
  end.

(** The parameters a list of factory arguments binds. *)
Definition bound_parameters (arguments : list (value E)) : list (value E) :=
  match arguments with
  | p :: q :: _ => [p; q]
  | _ => []
  end.

(** The generator behind a handle, and the state words it will draw
    from next in a given store. *)
Definition generator_of (h : Handle E) : option gid :=
  match rand h with
  | Raw i | Normalized i => Some i
  | _ => None
  end.

Definition storage_of (h : Handle E) (w : World E) : option loc :=
  i ← generator_of h; g ← gens w !! i; Some (STATE g).

Definition state_of (h : Handle E) (w : World E) : option (list Z) :=
  l ← storage_of h w; heap w !! l.

(** A handle whose generator shares the array at [l]. *)
Definition shares (h : Handle E) (l : loc) (w : World E) : Prop :=
  opaque h = false /\
  exists i, rand h = Normalized i /\ gens w !! i = Some (mkGenerator l true).

(** Options that seed a new generator with [s]: a plain object with a
    [seed], and neither a [state] nor a [prng]. *)
Definition seeded_options (opts s : value E) : Prop :=
  isObject opts = true /\
  hasOwnProp opts "prng" = false /\
  hasOwnProp opts "state" = false /\
  hasOwnProp opts "seed" = true /\
  getProp opts "seed" = s.

(** Options that make a new generator share the state array at [l]:
    [{ 'state': l, 'copy': false }]. *)
Definition sharing_options (opts : value E) (l : loc) : Prop :=
  isObject opts = true /\
  hasOwnProp opts "prng" = false /\
  hasOwnProp opts "copy" = true /\
  getProp opts "copy" = VBool false /\
  hasOwnProp opts "state" = true /\
  getProp opts "state" = VUint32Array l.

(** The store after a generator whose state array is [l] made [n] draws
    that left the words [st] there. *)
Definition drawn (l : loc) (st : list Z) (n : nat) (w : World E) : World E :=
  mkWorld (<[l := st]> (heap w)) (gens w) (env w) (calls w + n).

(** The JSON form of a state array. *)
Definition state_json (st : list Z) : value E :=
  VObject {[ "type" := VString "Uint32Array";
             "data" := VArray (map (fun z => VNumber (num_of_Z z)) st) ]}.

(** The draws a transform makes, run directly on state words. *)
Fixpoint pure_sample (st : list Z) (d : Draws) : number * list Z :=
  match d with
  | Done x => (x, st)
  | Draw k => pure_sample (snd (next_normalized st)) (k (fst (next_normalized st)))
  end.

Fixpoint draws_made (st : list Z) (d : Draws) : nat :=
  match d with
  | Done _ => 0
  | Draw k => S (draws_made (snd (next_normalized st)) (k (fst (next_normalized st))))
  end.

(** The draw tree of one call of a handle. *)
Definition call_tree (d : distribution) (h : Handle E) (x y : number) : Draws :=
  match prng h with
  | bound => transform d (to_number (param1 h)) (to_number (param2 h))
  | percall =>
    match d with
    | erlang =>
      if isnan x || isnan y || negb (isPositiveInteger x) || nonpositive y
      then Done NaN else transform erlang x y
    | kumaraswamy =>
      if isnan x || isnan y || nonpositive x || nonpositive y
      then Done NaN else transform kumaraswamy x y
    end
  end.

(** The outputs of successive calls as a function of the state words
    the first call starts from. *)
Fixpoint stream (d : distribution) (h : Handle E) (st : list Z)
    (args : list (number * number)) : list number :=
  match args with
  | [] => []
  | (x, y) :: rest =>
    fst (pure_sample st (call_tree d h x y))
      :: stream d h (snd (pure_sample st (call_tree d h x y))) rest
  end.

Fixpoint stream_state (d : distribution) (h : Handle E) (st : list Z)
    (args : list (number * number)) : list Z :=
  match args with
  | [] => st
  | (x, y) :: rest =>
    stream_state d h (snd (pure_sample st (call_tree d h x y))) rest
  end.

End Vocabulary.

(* ================================================================== *)
(** ** Concrete handles and stores *)
(* ================================================================== *)

(** Values of the Lehmer instance on which the properties below are
    evaluated. *)
Module Demo.

Definition transforms (d : distribution) : number -> number -> Draws :=
  match d with
  | erlang => Lehmer.erlang0
  | kumaraswamy => Lehmer.kumaraswamy0
  end.

(** [{ 'seed': 1234 }] *)
Definition seeded : value nat := VObject {[ "seed" := VNumber 1234 ]}.

(** [{ 'prng': counter }] *)
Definition external : value nat := VObject {[ "prng" := VFunction Lehmer.counter ]}.

(** [{ 'state': <array 0>, 'copy': false }] *)
Definition sharing : value nat :=
  VObject {[ "state" := VUint32Array 0; "copy" := VBool false ]}.

(** What [factory( { 'seed': 1234 } )] returns in the empty store. *)
Definition seeded_handle : Handle nat :=
  mkHandle nat percall "erlang" VUndefined VUndefined (Normalized 0) (Raw 0) false.

Definition seeded_world : World nat :=
  mkWorld {[ 0%nat := [1235%Z; 1234%Z] ]} {[ 0%nat := mkGenerator 0 false ]} 0 0.

(** What a second [factory( { 'seed': 1234 } )] returns after the first. *)
Definition second_handle : Handle nat :=
  mkHandle nat percall "erlang" VUndefined VUndefined (Normalized 1) (Raw 1) false.

Definition second_world : World nat :=
  mkWorld {[ 0%nat := [1235%Z; 1234%Z]; 1%nat := [1235%Z; 1234%Z] ]}
          {[ 0%nat := mkGenerator 0 false; 1%nat := mkGenerator 1 false ]} 0 0.

(** What [factory( 2, 1.0, { 'seed': 1234 } )] returns in the empty store. *)
Definition bound_handle : Handle nat :=
  mkHandle nat bound "erlang" (VNumber 2) (VNumber 1) (Normalized 0) (Raw 0) false.

(** What [factory( { 'prng': counter } )] returns. *)
Definition external_handle : Handle nat :=
  mkHandle nat percall "kumaraswamy" VUndefined VUndefined
           (Foreign Lehmer.counter) (Foreign Lehmer.counter) true.

(** Two generators sharing the array 0, next to two spare state arrays:
    one as long as the shared one, one longer. *)
Definition shared_world : World nat :=
  mkWorld {[ 0%nat := [1235%Z; 1234%Z]; 1%nat := [77%Z; 1234%Z];
             2%nat := [5%Z; 1%Z; 2%Z] ]}
          {[ 0%nat := mkGenerator 0 true; 1%nat := mkGenerator 0 true ]} 0 0.

Definition first_sharer : Handle nat :=
  mkHandle nat percall "erlang" VUndefined VUndefined (Normalized 0) (Raw 0) false.

Definition second_sharer : Handle nat :=
  mkHandle nat percall "erlang" VUndefined VUndefined (Normalized 1) (Raw 1) false.

(** A zero-filled array of nine elements, broadcast parameters [2] and
    [1], the per-call sampler over the seeded generator, and the three
    samples it returns first, with the store they leave. *)
Definition zeros : gmap Z number :=
  list_to_map ((fun i => (i, 0%float)) <$> seqZ 0 9).

Definition shape : gmap Z number := {[ 0%Z := 2%float ]}.

Definition rate : gmap Z number := {[ 0%Z := 1%float ]}.

(** Six parameter values [1 .. 6], as the buffer of a view. *)
Definition ramp : gmap Z number :=
  list_to_map ((fun i => (i, PrimFloat.of_uint63 (Uint63.of_Z (i + 1)))) <$> seqZ 0 6).

Definition kuma : number -> number -> M nat number :=
  sampler_of transforms kumaraswamy (Normalized 0).

Definition three_samples : list number :=
  [0.006443710382820148; 0.29944557103587216; 0.11504860698715653]%float.

Definition after_three : World nat :=
  Eval vm_compute in
    world_of (Strided.samples kuma 3 0 shape 0 0 rate 0 0 seeded_world).

End Demo.

(* ================================================================== *)
(** ** Valid per-call parameters *)
(* ================================================================== *)

(** The parameters the factories document as valid: a positive integer
    shape and a positive rate for Erlang, two positive shapes for
    Kumaraswamy. *)
Definition valid_parameters (d : distribution) (x y : number) : bool :=
  match d with
  | erlang => isPositiveInteger x && Number.positive y
  | kumaraswamy => Number.positive x && Number.positive y
  end.

(** The arguments after the two bound parameters: at most the options. *)
Definition without_parameters {E} (arguments : list (value E)) : list (value E) :=
  match arguments with
  | _ :: _ :: opts :: _ => [opts]
  | _ => []
  end.

(* ================================================================== *)
(** ** [iter/mt19937/lib/main.js] *)
(* ================================================================== *)

Module Iterator.

(** [@stdlib/constants/float64/max] *)
Definition MAX_VALUE : number := 0x1.fffffffffffffp1023%float.

(** What [next] and [return] hand back: [{ 'value': v, 'done': b }], or
    [{ 'done': b }] when there is no [value] property. *)
Record IteratorResult {E : Type} : Type := mkResult {
  value_ : option (value E);
  done : bool
}.
Arguments IteratorResult : clear implicits.
Arguments mkResult {E} value_ done.

(** The closure of one iterator: the variables [rand], [opts], [i] and
    [FLG] that [next], [end] and [factory] read and update. *)
Record Closure {E : Type} : Type := mkClosure {
  rand : @uniform E;
  opts : value E;
  i : number;
  FLG : bool
}.
Arguments Closure : clear implicits.
Arguments mkClosure {E} rand opts i FLG.

Section Iterator.

Context {E : Type} `{BG : BitGenerator E}.

(** [@stdlib/assert/is-boolean], [isPrimitive] *)
Definition isBoolean (v : value E) : bool :=
  match v with VBool _ => true | _ => false end.

(** [@stdlib/assert/is-nonnegative-integer], [isPrimitive]: a finite
    number primitive with an integer value that is [>= 0]. *)
Definition isNonNegativeInteger (v : value E) : bool :=
  match v with
  | VNumber x =>
    PrimFloat.ltb x infinity && PrimFloat.ltb neg_infinity x &&
    isInteger x && PrimFloat.leb 0 x
  | _ => false
  end.

(** [opts.name = x;] on a plain object *)
Definition setProp (v : value E) (name : string) (x : value E) : value E :=
  match v with
  | VObject props => VObject (<[name := x]> props)
  | _ => v
  end.

(** [opts.copy !== false] *)
Definition copy_not_false (v : value E) : bool :=
  match getProp v "copy" with
  | VBool false => false
  | _ => true
  end.

(** [iterator( [options] )], applied to its [arguments].  [copy( options,
    1 )] duplicates the object one level deep; values here are immutable,
    so the copy is the value itself. *)
Definition iterator (arguments : list (value E)) : M E (Closure E) :=
  match arguments with
  | options :: _ =>
    if negb (isObject options) then
      throw (TypeError "invalid argument. Options argument must be an object.")
    else if hasOwnProp options "normalized"
            && negb (isBoolean (getProp options "normalized")) then
      throw (TypeError "invalid option. `normalized` option must be a boolean primitive.")
    else if hasOwnProp options "iter"
            && negb (isNonNegativeInteger (getProp options "iter")) then
      throw (TypeError "invalid option. `iter` option must be a nonnegative integer.")
    else
      let opts1 := if hasOwnProp options "iter" then options
                   else setProp options "iter" (VNumber MAX_VALUE) in
      g <- randu [opts1] ;;
      opts2 <- (if copy_not_false opts1 then
                  st <- mt_state g ;; ret (setProp opts1 "state" st)
                else ret opts1) ;;
      ret (mkClosure (if truthy (getProp opts2 "normalized")
                      then Normalized g else Raw g)
                     opts2 0 false)
  | [] =>
    g <- randu [] ;;
    st <- mt_state g ;;
    ret (mkClosure (Raw g)
                   (VObject {[ "iter" := VNumber MAX_VALUE; "state" := st ]})
                   0 false)
  end.

(** [next()]: the new closure has [i] incremented, whatever is returned. *)
Definition next (c : Closure E) : M E (IteratorResult E * Closure E) :=
  let c' := mkClosure (rand c) (opts c) (PrimFloat.add (i c) 1) (FLG c) in
  if FLG c || PrimFloat.ltb (to_number (getProp (opts c) "iter")) (i c') then
    ret (mkResult None true, c')
  else
    v <- call_rand (rand c) ;;
    ret (mkResult (Some (VNumber v)) false, c').

(** [end( value )], the iterator's [return] method. *)
Definition end_ (c : Closure E) (arguments : list (value E)) :
    IteratorResult E * Closure E :=
  (match arguments with
   | v :: _ => mkResult (Some v) true
   | [] => mkResult None true
   end,
   mkClosure (rand c) (opts c) (i c) true).

(** [factory()], the iterator's [Symbol.iterator] method. *)
Definition factory (c : Closure E) : M E (Closure E) :=
  iterator [opts c].

Definition getSeed (c : Closure E) : M E (value E) :=
  Factory.base_prop mt_seed (rand c).
Definition getSeedLength (c : Closure E) : M E (value E) :=
  Factory.base_prop mt_seedLength (rand c).
Definition getStateLength (c : Closure E) : M E (value E) :=
  Factory.base_prop mt_stateLength (rand c).
Definition getStateSize (c : Closure E) : M E (value E) :=
  Factory.base_prop mt_byteLength (rand c).
Definition getState (c : Closure E) : M E (value E) :=
  Factory.base_prop mt_state (rand c).

(** [rand.state = s;] *)
Definition setState (c : Closure E) (s : value E) : M E unit :=
  match rand c with
  | Raw g | Normalized g => mt_set_state g s
  | Foreign _ => ret tt
  | NoSource => throw (TypeError "cannot set properties of undefined")
  end.

(** [n] calls of [next] in a row. *)
Fixpoint nexts (n : nat) (c : Closure E) :
    M E (list (IteratorResult E) * Closure E) :=
  match n with
  | 0 => ret ([], c)
  | S n' =>
    rc <- next c ;;
    rs <- nexts n' (snd rc) ;;
    ret (fst rc :: fst rs, snd rs)
  end.

End Iterator.
End Iterator.

(** The state words a uniform source will draw from next, when it is a
    base generator. *)
Definition source_state {E} (r : @uniform E) (w : World E) : option (list Z) :=
  match r with
  | Raw g | Normalized g => G ← gens w !! g; heap w !! STATE G
  | _ => None
  end.

(** What [n] calls of [next] return for an iterator over a raw base
    generator, computed from its bound [iter], its counter, its flag and
    the generator's state words alone; with the counter and the words
    left behind. *)
Fixpoint pure_nexts {E} `{BG : BitGenerator E} (iter : number) (n : nat)
    (i : number) (FLG : bool) (st : list Z) :
    list (Iterator.IteratorResult E) * number * list Z :=
  match n with
  | 0 => ([], i, st)
  | S n' =>
    let i' := PrimFloat.add i 1 in
    if FLG || PrimFloat.ltb iter i' then
      let '(rs, j, st') := pure_nexts iter n' i' FLG st in
      (Iterator.mkResult None true :: rs, j, st')
    else
      let '(rs, j, st') := pure_nexts iter n' i' FLG (snd (next st)) in
      (Iterator.mkResult (Some (VNumber (num_of_Z (fst (next st))))) false :: rs,
       j, st')
  end.

(* ================================================================== *)
(** ** [streams/lognormal/lib/factory.js] *)
(* ================================================================== *)

Module Streams.

(** Which inner function the stream factory returned. *)
Inductive creator : Type :=
| createStream1    (* parameters given when a stream is created *)
| createStream2.   (* parameters fixed by the factory *)

(** The function the factory returns, as the closure it is. *)
Record StreamFactory {E : Type} : Type := mkStreamFactory {
  fcn : creator;
  mu : value E;
  sigma : value E;
  opts : value E
}.
Arguments StreamFactory : clear implicits.
Arguments mkStreamFactory {E} fcn mu sigma opts.

Section Streams.

Context {E : Type}.

(** The characters of a string. *)
Fixpoint chars (s : string) : list Ascii.ascii :=
  match s with
  | EmptyString => []
  | String c rest => c :: chars rest
  end.

(** The properties ["i"], ["i+1"], ... of an array-like object. *)
Fixpoint indexed {A} (f : A -> value E) (xs : list A) (i : nat) :
    gmap string (value E) :=
  match xs with
  | [] => ∅
  | x :: rest => <[pretty i := f x]> (indexed f rest (S i))
  end.

(** [@stdlib/object/assign], as [assign( {}, source )]: the own
    enumerable properties of [source], which are none for [undefined],
    [null], booleans, numbers and functions, and the indexed elements for
    strings and arrays. *)
Definition assign (source : value E) : M E (value E) :=
  match source with
  | VObject props => ret (VObject props)
  | VArray xs => ret (VObject (indexed id xs 0))
  | VString s =>
    ret (VObject (indexed (fun c => VString (String c EmptyString))
                          (chars s) 0))
  | VUint32Array l =>
    fun w => Return (VObject (indexed (fun z => VNumber (num_of_Z z))
                                      (default [] (heap w !! l)) 0)) w
  | VUndefined | VNull | VBool _ | VNumber _ | VFunction _ => ret (VObject ∅)
  end.

(** [factory( mu, sigma, options )], applied to its [arguments]. *)
Definition factory (arguments : list (value E)) : M E (StreamFactory E) :=
  let nargs := length arguments in
  opts <- (if Nat.eqb nargs 1 then assign (nth 0 arguments VUndefined)
           else if Nat.ltb 2 nargs then assign (nth 2 arguments VUndefined)
           else ret (VObject ∅)) ;;
  ret (mkStreamFactory (if Nat.ltb nargs 2 then createStream1 else createStream2)
                       (nth 0 arguments VUndefined)
                       (nth 1 arguments VUndefined)
                       opts).

(** The stream constructor [./main.js], sources missing: whatever it
    does with its three arguments. *)
Context {S : Type}.
Variable RandomStream : value E -> value E -> value E -> M E S.

(** Calling the function the factory returned. *)
Definition create (f : StreamFactory E) (arguments : list (value E)) : M E S :=
  match fcn f with
  | createStream1 =>
    RandomStream (nth 0 arguments VUndefined) (nth 1 arguments VUndefined) (opts f)
  | createStream2 =>
    RandomStream (mu f) (sigma f) (opts f)
  end.

End Streams.
End Streams.

(* ================================================================== *)
(** ** More concrete values *)
(* ================================================================== *)

(** Values of the Lehmer instance for the properties of the factories'
    edges, of the iterator and of the stream factory. *)
Module Samples.

(** [{ 'prng': 1 }] *)
Definition bad_prng : value nat := VObject {[ "prng" := VNumber 1 ]}.

(** [{ 'prng': counter, 'seed': 'x', 'state': null }] *)
Definition prng_and_more : value nat :=
  VObject {[ "prng" := VFunction Lehmer.counter; "seed" := VString "x";
             "state" := VNull ]}.

(** [{ 'iter': -1 }] *)
Definition bad_iter : value nat := VObject {[ "iter" := VNumber (-1) ]}.

(** An iterator bounded by [iter: 2] over the generator of
    [Demo.seeded_world], before its first [next]. *)
Definition bounded : Iterator.Closure nat :=
  Iterator.mkClosure (Raw 0) (VObject {[ "iter" := VNumber 2 ]}) 0 false.

(** What its first [next] returns, and leaves. *)
Definition first_result : Iterator.IteratorResult nat :=
  Iterator.mkResult (Some (VNumber 20756645)) false.

Definition after_first : Iterator.Closure nat :=
  Iterator.mkClosure (Raw 0) (VObject {[ "iter" := VNumber 2 ]}) 1 false.

(** The store after one raw draw in [Demo.seeded_world]. *)
Definition drawn_once : World nat :=
  mkWorld {[ 0%nat := [20756645%Z; 1234%Z] ]} {[ 0%nat := mkGenerator 0 false ]} 0 1.

(** [iterator()] in the empty store, and two calls of [next] on it. *)
Definition made : completion nat (Iterator.Closure nat) :=
  Eval vm_compute in Iterator.iterator [] Lehmer.empty_world.

Definition fresh_iterator : Iterator.Closure nat :=
  Eval vm_compute in
    match made with
    | Return c _ => c
    | Throw _ _ => Iterator.mkClosure NoSource VUndefined 0 false
    end.

Definition fresh_world : World nat :=
  Eval vm_compute in world_of made.

Definition advanced :
    completion nat (list (Iterator.IteratorResult nat) * Iterator.Closure nat) :=
  Eval vm_compute in Iterator.nexts 2 fresh_iterator fresh_world.

Definition advanced_results : list (Iterator.IteratorResult nat) :=
  Eval vm_compute in
    match advanced with Return rc _ => fst rc | Throw _ _ => [] end.

Definition advanced_iterator : Iterator.Closure nat :=
  Eval vm_compute in
    match advanced with Return rc _ => snd rc | Throw _ _ => fresh_iterator end.

Definition advanced_world : World nat :=
  Eval vm_compute in world_of advanced.

(** A stand-in for the stream constructor: a stream is the triple of
    its arguments. *)
Definition RandomStream (mu sigma opts : value nat) :
    M nat (value nat * value nat * value nat) :=
  ret (mu, sigma, opts).

End Samples.

(* ================================================================== *)
(** * Properties *)
(* ================================================================== *)

(** ** Numbers *)

Lemma isnan_NaN : isnan NaN = true.
Proof. reflexivity. Qed.

Lemma Prim2SF_zero : Prim2SF 0 = S754_zero false.
Proof. reflexivity. Qed.

(** A number that is [<= 0.0] is not [> 0.0]. *)
Lemma nonpositive_not_positive (x : number) :
  nonpositive x = true -> positive x = false.
Proof.
  unfold nonpositive, positive.
  rewrite FloatAxioms.leb_spec, FloatAxioms.ltb_spec, Prim2SF_zero.
  unfold SFleb, SFltb.
  destruct (Prim2SF x) as [s|s| |s m e]; simpl; try destruct s; simpl; congruence.
Qed.

Lemma nonpositive_not_isPositiveInteger (x : number) :
  nonpositive x = true -> isPositiveInteger x = false.
Proof.
  intros Hx. unfold isPositiveInteger.
  apply nonpositive_not_positive in Hx. unfold positive in Hx.
  rewrite Hx. apply andb_false_r.
Qed.

Lemma not_isInteger_not_isPositiveInteger (x : number) :
  isInteger x = false -> isPositiveInteger x = false.
Proof. intros Hx. unfold isPositiveInteger. now rewrite Hx. Qed.

Example isInteger_2 : isInteger 2 = true.
Proof. reflexivity. Qed.
Example isInteger_pi : isInteger 3.14 = false.
Proof. reflexivity. Qed.
Example isPositiveInteger_neg : isPositiveInteger (-3) = false.
Proof. reflexivity. Qed.

(** ** The concrete instance, evaluated *)

Example start_1234 : Lehmer.start [1234%Z] = [1235%Z; 1234%Z].
Proof. reflexivity. Qed.

Example normalized_1234 :
  fst (@next_normalized _ Lehmer.generator (Lehmer.start [1234%Z])) = 0.0096655655742302216%float.
Proof. vm_compute. reflexivity. Qed.

(** ** The factory *)

Ltac js_unfold := unfold bind, ret, throw in *.
Arguments randu : simpl never.

Section Facts.

Context {E : Type} `{BG : BitGenerator E}.

Implicit Types (w u : World E) (v opts : value E) (h : Handle E).

Lemma hasOwnProp_false_getProp opts name :
  hasOwnProp opts name = false -> getProp opts name = VUndefined.
Proof.
  destruct opts; simpl; try done.
  intros Hn. apply bool_decide_eq_false in Hn.
  destruct (props !! name) eqn:Hl; [|done].
  exfalso. apply Hn. eauto.
Qed.

Lemma isFunction_as_uniform v :
  isFunction v = true -> exists f, v = VFunction f /\ as_uniform v = Foreign f.
Proof. destruct v; simpl; try done. eauto. Qed.


(** *** What [resolve] returns *)

Lemma resolve_prng opts w r w' :
  hasOwnProp opts "prng" = true ->
  Factory.resolve opts w = Return r w' ->
  w' = w /\ exists f, getProp opts "prng" = VFunction f /\ r = Foreign f.
Proof.
  unfold Factory.resolve. intros Hp Hr. js_unfold.
  destruct (isObject opts); simpl in Hr; [|discriminate].
  rewrite Hp in Hr.
  destruct (isFunction (getProp opts "prng")) eqn:Hf; simpl in Hr; [|discriminate].
  apply isFunction_as_uniform in Hf as (f & Hf & Hu).
  injection Hr as <- <-. eauto.
Qed.

Lemma resolve_randu opts w r w' :
  hasOwnProp opts "prng" = false ->
  Factory.resolve opts w = Return r w' ->
  exists i, r = Raw i /\ randu [opts] w = Return i w'.
Proof.
  unfold Factory.resolve. intros Hp Hr. js_unfold.
  destruct (isObject opts); simpl in Hr; [|discriminate].
  rewrite Hp in Hr.
  destruct (randu [opts] w) as [i w1|]; [|discriminate].
  injection Hr as <- <-. eauto.
Qed.

(** *** The two kinds of handle *)

Section Generic.

Variable name : string.
Variable validate : value E -> value E -> option error.

Lemma finish_prng k lambda opts f :
  getProp opts "prng" = VFunction f ->
  isObject opts = true ->
  Factory.finish name k lambda opts (Foreign f) =
  mkHandle E (if isUndefined k then percall else bound) name k lambda
           (Foreign f) (Foreign f) true.
Proof.
  intros Hf Ho. unfold Factory.finish. rewrite Hf.
  destruct opts; try discriminate. reflexivity.
Qed.

Lemma finish_no_prng k lambda opts i :
  getProp opts "prng" = VUndefined ->
  Factory.finish name k lambda opts (Raw i) =
  mkHandle E (if isUndefined k then percall else bound) name k lambda
           (Normalized i) (Raw i) false.
Proof.
  intros Hf. unfold Factory.finish. rewrite Hf. simpl.
  rewrite andb_false_r. reflexivity.
Qed.

(** A factory call with a [prng] option returns an opaque handle around
    that callable and creates nothing. *)
Lemma factory_prng arguments w h w' :
  hasOwnProp (options_of arguments) "prng" = true ->
  Factory.factory name validate arguments w = Return h w' ->
  w' = w /\ opaque h = true /\
  exists f, getProp (options_of arguments) "prng" = VFunction f /\
            rand h = Foreign f /\ PRNG h = Foreign f.
Proof.
  intros Hp Hf. unfold Factory.factory in Hf.
  destruct arguments as [|a [|b rest]]; simpl in Hp; try discriminate.
  - js_unfold.
    destruct (Factory.resolve a w) as [r w1|] eqn:Hr; [|discriminate].
    injection Hf as <- <-.
    assert (Ho : isObject a = true) by (destruct a; done).
    apply resolve_prng in Hr as (-> & f & Hg & ->); [|done].
    rewrite finish_prng; eauto 10.
  - destruct rest as [|opts rest]; simpl in Hp; try discriminate.
    destruct (validate a b); [discriminate|]. js_unfold.
    destruct (Factory.resolve opts w) as [r w1|] eqn:Hr; [|discriminate].
    injection Hf as <- <-.
    assert (Ho : isObject opts = true) by (destruct opts; done).
    apply resolve_prng in Hr as (-> & f & Hg & ->); [|done].
    rewrite finish_prng; eauto 10.
Qed.

(** Any other successful call returns a handle around a base generator
    that [randu] made from the same options. *)
Lemma factory_no_prng arguments w h w' :
  hasOwnProp (options_of arguments) "prng" = false ->
  Factory.factory name validate arguments w = Return h w' ->
  opaque h = false /\
  exists i, rand h = Normalized i /\ PRNG h = Raw i /\
    randu (match options_of arguments with VUndefined => [] | o => [o] end) w
      = Return i w'.
Proof.
  intros Hp Hf. unfold Factory.factory in Hf.
  destruct arguments as [|a [|b rest]]; simpl in Hp.
  - js_unfold. destruct (randu [] w) as [i w1|] eqn:Hr; [|discriminate].
    injection Hf as <- <-. rewrite finish_no_prng by done. simpl. eauto.
  - js_unfold.
    destruct (Factory.resolve a w) as [r w1|] eqn:Hr; [|discriminate].
    injection Hf as <- <-.
    apply resolve_randu in Hr as (i & -> & Hr); [|done].
    rewrite finish_no_prng by (by apply hasOwnProp_false_getProp).
    simpl. split; [done|]. exists i. repeat split.
    (* an [undefined] options argument is not an object *)
    destruct a; try done; unfold randu in Hr; simpl in Hr; discriminate.
  - destruct (validate a b); [discriminate|].
    destruct rest as [|opts rest]; simpl in Hp.
    + js_unfold. destruct (randu [] w) as [i w1|] eqn:Hr; [|discriminate].
      injection Hf as <- <-. rewrite finish_no_prng by done. simpl. eauto.
    + js_unfold.
      destruct (Factory.resolve opts w) as [r w1|] eqn:Hr; [|discriminate].
      injection Hf as <- <-.
      apply resolve_randu in Hr as (i & -> & Hr); [|done].
      rewrite finish_no_prng by (by apply hasOwnProp_false_getProp).
      simpl. split; [done|]. exists i. repeat split.
      destruct opts; try done; unfold randu in Hr; simpl in Hr; discriminate.
Qed.

(** The closure variables a successful call captured. *)
Lemma factory_fields arguments w h w' :
  Factory.factory name validate arguments w = Return h w' ->
  NAME h = name /\
  match arguments with
  | k :: lambda :: _ =>
    validate k lambda = None /\ param1 h = k /\ param2 h = lambda /\
    prng h = (if isUndefined k then percall else bound)
  | _ => param1 h = VUndefined /\ param2 h = VUndefined /\ prng h = percall
  end.
Proof.
  assert (Hfin : forall k lambda opts r,
    let h := Factory.finish name k lambda opts r in
    NAME h = name /\ param1 h = k /\ param2 h = lambda /\
    prng h = (if isUndefined k then percall else bound)).
  { intros k lambda opts r. unfold Factory.finish.
    by destruct (truthy opts && truthy (getProp opts "prng")). }
  intros Hf. unfold Factory.factory in Hf. js_unfold.
  destruct arguments as [|a [|b rest]].
  - destruct (randu [] w); [|discriminate]. injection Hf as <- <-.
    by destruct (Hfin VUndefined VUndefined VUndefined (Raw a)) as (? & ? & ? & ?).
  - destruct (Factory.resolve a w) as [r ?|]; [|discriminate]. injection Hf as <- <-.
    by destruct (Hfin VUndefined VUndefined a r) as (? & ? & ? & ?).
  - destruct (validate a b) eqn:Hv; [discriminate|].
    destruct rest as [|opts rest].
    + destruct (randu [] w) as [i ?|]; [|discriminate]. injection Hf as <- <-.
      by destruct (Hfin a b VUndefined (Raw i)) as (? & ? & ? & ?).
    + destruct (Factory.resolve opts w) as [r ?|]; [|discriminate].
      injection Hf as <- <-.
      by destruct (Hfin a b opts r) as (? & ? & ? & ?).
Qed.

End Generic.

(** *** Effects of the base factory *)

(** [randu] only ever adds to the store: one generator, and at most one
    array. *)
Lemma randu_effect args w i w' :
  randu args w = Return i w' ->
  exists g,
    i = fresh (dom (gens w)) /\
    gens w' = <[i := g]> (gens w) /\
    calls w' = calls w /\
    ((shared g = false /\ exists st,
        STATE g = fresh (dom (heap w)) /\
        heap w' = <[STATE g := st]> (heap w)) \/
     (shared g = true /\ heap w' = heap w /\ env w' = env w /\
      exists st, heap w !! STATE g = Some st /\ verify_state st = true /\
        getProp (default VUndefined (head args)) "state" = VUint32Array (STATE g) /\
        getProp (default VUndefined (head args)) "copy" = VBool false)).
Proof.
  assert (Hcreate : forall st w i w',
    create st w = Return i w' ->
    i = fresh (dom (gens w)) /\
    gens w' = <[i := mkGenerator (fresh (dom (heap w))) false]> (gens w) /\
    calls w' = calls w /\
    heap w' = <[fresh (dom (heap w)) := st]> (heap w)).
  { intros st u j u' Hc. unfold create, alloc, new_generator in Hc. js_unfold.
    simpl in Hc. injection Hc as <- <-. done. }
  assert (Hent : forall w i w',
    (sd <- entropy ;; create (init_state sd)) w = Return i w' ->
    exists g, i = fresh (dom (gens w)) /\ gens w' = <[i := g]> (gens w) /\
      calls w' = calls w /\ shared g = false /\ exists st,
        STATE g = fresh (dom (heap w)) /\ heap w' = <[STATE g := st]> (heap w)).
  { intros u j u' Hc. unfold bind, entropy in Hc.
    destruct (random_seed (env u)) as [sd e].
    apply Hcreate in Hc as (-> & Hg & Hc & Hh). simpl in *.
    eexists. repeat split; eauto. }
  intros Hr. unfold randu in Hr.
  destruct args as [|opts rest].
  { apply Hent in Hr as (g & ? & ? & ? & ? & ?). exists g. eauto 10. }
  destruct (isObject opts); simpl in Hr; [|discriminate].
  unfold bind at 1 in Hr.
  destruct (hasOwnProp opts "copy") eqn:Hcp.
  - destruct (getProp opts "copy") as [| |cp| | | | | |] eqn:Hgc; try discriminate.
    unfold ret at 1 in Hr.
    destruct (hasOwnProp opts "state").
    + destruct (getProp opts "state") as [| | | | | |l| |] eqn:Hgs; try discriminate.
      unfold bind, read in Hr.
      destruct (heap w !! l) as [st|] eqn:Hl; [|discriminate].
      destruct (verify_state st) eqn:Hv; [|discriminate].
      destruct cp.
      * apply Hcreate in Hr as (-> & Hg & Hc & Hh). eexists. split; [done|].
        split; [done|]. split; [done|]. left. simpl. eauto.
      * unfold new_generator in Hr. injection Hr as <- <-.
        eexists. split; [done|]. split; [done|]. split; [done|]. right.
        simpl. rewrite Hgs, Hgc. eauto 10.
    + destruct (hasOwnProp opts "seed").
      * destruct (seed_words (getProp opts "seed")) as [sd|]; [|discriminate].
        apply Hcreate in Hr as (-> & Hg & Hc & Hh). eexists. split; [done|].
        split; [done|]. split; [done|]. left. simpl. eauto.
      * apply Hent in Hr as (g & ? & ? & ? & ? & ?). exists g. eauto 10.
  - unfold ret at 1 in Hr.
    destruct (hasOwnProp opts "state").
    + destruct (getProp opts "state") as [| | | | | |l| |] eqn:Hgs; try discriminate.
      unfold bind, read in Hr.
      destruct (heap w !! l) as [st|] eqn:Hl; [|discriminate].
      destruct (verify_state st) eqn:Hv; [|discriminate].
      apply Hcreate in Hr as (-> & Hg & Hc & Hh). eexists. split; [done|].
      split; [done|]. split; [done|]. left. simpl. eauto.
    + destruct (hasOwnProp opts "seed").
      * destruct (seed_words (getProp opts "seed")) as [sd|]; [|discriminate].
        apply Hcreate in Hr as (-> & Hg & Hc & Hh). eexists. split; [done|].
        split; [done|]. split; [done|]. left. simpl. eauto.
      * apply Hent in Hr as (g & ? & ? & ? & ? & ?). exists g. eauto 10.
Qed.

(** *** Draws from a base generator *)

Lemma drawn_gens l st n w : gens (drawn l st n w) = gens w.
Proof. reflexivity. Qed.

Lemma drawn_heap_eq l st n w : heap (drawn l st n w) !! l = Some st.
Proof. apply lookup_insert_eq. Qed.

Lemma drawn_heap_ne l l' st n w :
  l ≠ l' -> heap (drawn l st n w) !! l' = heap w !! l'.
Proof. intros. by apply lookup_insert_ne. Qed.

Lemma drawn_drawn l st st' n n' w :
  drawn l st' n' (drawn l st n w) = drawn l st' (n + n') w.
Proof.
  unfold drawn. simpl. f_equal; [apply insert_insert_eq | lia].
Qed.

Lemma drawn_id l st w : heap w !! l = Some st -> drawn l st 0 w = w.
Proof.
  intros Hl. unfold drawn. destruct w as [hp gs e c]. simpl in *.
  f_equal; [by apply insert_id | lia].
Qed.

Lemma normalized_step i g st w :
  gens w !! i = Some g -> heap w !! STATE g = Some st ->
  call_rand (Normalized i) w =
  Return (fst (next_normalized st)) (drawn (STATE g) (snd (next_normalized st)) 1 w).
Proof.
  intros Hg Hs. unfold call_rand, normalized, generator, read, write. js_unfold.
  simpl. rewrite Hg. simpl. rewrite Hs. unfold drawn. simpl.
  f_equal. unfold tick, with_heap. simpl. f_equal. lia.
Qed.

(** A transform run over a base generator returns what it computes from
    the state words, and leaves the advanced words in the state array. *)
Lemma sample_normalized i g t : forall st w,
  gens w !! i = Some g -> heap w !! STATE g = Some st ->
  sample (Normalized i) t w =
  Return (fst (pure_sample st t))
         (drawn (STATE g) (snd (pure_sample st t)) (draws_made st t) w).
Proof.
  induction t as [x|k IH]; intros st w Hg Hs; cbn [sample pure_sample draws_made].
  - unfold ret. simpl. by rewrite drawn_id.
  - unfold bind. rewrite (normalized_step i g st w Hg Hs).
    rewrite (IH _ (snd (next_normalized st))); [|done|apply drawn_heap_eq].
    by rewrite drawn_drawn.
Qed.

Section Transforms.

Variable transform : distribution -> number -> number -> Draws.

Lemma call_of_sample d h x y w :
  call_of transform d h x y w = sample (rand h) (call_tree transform d h x y) w.
Proof.
  unfold call_of, call_tree, Erlang.call, Kumaraswamy.call, Factory.call.
  destruct d, (prng h); try reflexivity.
  - unfold Erlang.erlang2.
    by destruct (isnan x || isnan y || negb (isPositiveInteger x) || nonpositive y).
  - unfold Kumaraswamy.kumaraswamy2.
    by destruct (isnan x || isnan y || nonpositive x || nonpositive y).
Qed.

Lemma calls_of_cons d h x y rest w :
  calls_of transform d h ((x, y) :: rest) w =
  (v <- call_of transform d h x y ;;
   vs <- calls_of transform d h rest ;;
   ret (v :: vs)) w.
Proof. by destruct d. Qed.

Lemma calls_of_nil d h w : calls_of transform d h [] w = Return [] w.
Proof. by destruct d. Qed.

(** Successive calls of a handle over a base generator return the
    [stream] of the words in its state array. *)
Lemma calls_of_stream d h i g args : forall st w,
  rand h = Normalized i ->
  gens w !! i = Some g -> heap w !! STATE g = Some st ->
  exists n,
    calls_of transform d h args w =
    Return (stream transform d h st args)
           (drawn (STATE g) (stream_state transform d h st args) n w).
Proof.
  induction args as [|[x y] rest IH]; intros st w Hr Hg Hs.
  - exists 0. rewrite calls_of_nil. simpl. by rewrite drawn_id.
  - rewrite calls_of_cons. unfold bind at 1.
    rewrite call_of_sample, Hr, (sample_normalized i g _ st w Hg Hs).
    destruct (IH (snd (pure_sample st (call_tree transform d h x y)))
                 (drawn (STATE g) (snd (pure_sample st (call_tree transform d h x y)))
                        (draws_made st (call_tree transform d h x y)) w))
      as (n & Hn); [done|done|apply drawn_heap_eq|].
    unfold bind. rewrite Hn. unfold ret. rewrite drawn_drawn. simpl. eauto.
Qed.

End Transforms.

(** *** The per-call guards *)

Lemma erlang_guard x y :
  invalid_parameters erlang x y ->
  isnan x || isnan y || negb (isPositiveInteger x) || nonpositive y = true.
Proof.
  intros [H|[H|[H|[H|H]]]].
  - by rewrite H.
  - rewrite H. by rewrite orb_true_r.
  - rewrite (nonpositive_not_isPositiveInteger x H). simpl.
    by rewrite orb_true_r.
  - rewrite H. by rewrite orb_true_r.
  - rewrite (not_isInteger_not_isPositiveInteger x H). simpl.
    by rewrite orb_true_r.
Qed.

Lemma kumaraswamy_guard x y :
  invalid_parameters kumaraswamy x y ->
  isnan x || isnan y || nonpositive x || nonpositive y = true.
Proof.
  intros [H|[H|[H|H]]]; rewrite H; by rewrite ?orb_true_r.
Qed.

Section Samplers.

Variable transform : distribution -> number -> number -> Draws.

(** On invalid parameters the per-call sampler of either distribution
    returns [NaN] at once, whatever its uniform source. *)
Lemma sampler_of_invalid d r x y w :
  invalid_parameters d x y ->
  sampler_of transform d r x y w = Return NaN w.
Proof.
  intros Hi. destruct d; simpl.
  - unfold Erlang.erlang2. by rewrite erlang_guard.
  - unfold Kumaraswamy.kumaraswamy2. by rewrite kumaraswamy_guard.
Qed.

Lemma call_of_percall d h x y w :
  prng h = percall ->
  call_of transform d h x y w = sampler_of transform d (rand h) x y w.
Proof.
  intros Hp. destruct d; simpl;
    unfold Erlang.call, Kumaraswamy.call, Factory.call; by rewrite Hp.
Qed.

End Samplers.

End Facts.

(** ** The handle *)

Section HandleFacts.

Context {E : Type} `{BG : BitGenerator E}.
Variable transform : distribution -> number -> number -> Draws.

Implicit Types (w u : World E) (v opts p q s : value E) (h : Handle E).
Implicit Types (d : distribution).

Lemma factory_of_unfold d :
  factory_of d = Factory.factory (name_of d) (validate_of d).
Proof. by destruct d. Qed.

Lemma validate_defined d p q :
  validate_of d p q = None ->
  isUndefined p = false.
Proof. destruct d, p; simpl; done. Qed.

Lemma validate_invalid d p q :
  invalid_bound d p q ->
  exists msg, validate_of d p q = Some (TypeError msg).
Proof.
  destruct d; simpl; unfold Erlang.validate, Kumaraswamy.validate,
    is_positive_integer, is_positive_number; intros [Hp|Hq].
  - destruct p; eauto. rewrite Hp. eauto.
  - destruct p; eauto. destruct (isPositiveInteger x); eauto.
    destruct q; eauto. rewrite Hq. eauto.
  - destruct p; eauto. rewrite Hp. eauto.
  - destruct p; eauto. destruct (Number.positive x); eauto.
    destruct q; eauto. rewrite Hq. eauto.
Qed.

(** A factory call without parameters returns the per-call sampler. *)
Lemma factory_percall d arguments w h w' :
  length arguments < 2 ->
  factory_of d arguments w = Return h w' ->
  prng h = percall.
Proof.
  intros Hl Hf. rewrite factory_of_unfold in Hf.
  apply factory_fields in Hf as [_ Hf].
  destruct arguments as [|a [|b rest]]; simpl in Hl; [by destruct Hf as (_ & _ & ?)..|lia].
Qed.

(** C2.  Called with per-call parameters, a sampler returns [NaN] as the
    sample and does not throw whenever the parameters are invalid: one of
    them is [NaN], a shape or rate is not positive, or the Erlang shape is
    not an integer.  ([d] ranges over the two factories of the sources,
    [h] over the handles that take their parameters at each call.) *)
Theorem invalid_parameters_yield_NaN d h x y w :
  prng h = percall ->
  invalid_parameters d x y ->
  returned (call_of transform d h x y w) = Some NaN /\
  throws (call_of transform d h x y w) = false.
Proof.
  intros Hp Hi. rewrite call_of_percall, sampler_of_invalid by done. done.
Qed.

(** C9.  A call with invalid per-call parameters returns [NaN] in the
    very store it was made in: the uniform source is not invoked (the
    count of invocations and every generator state are as before), so
    any call made next behaves as if the failed call had not happened. *)
Theorem invalid_call_draws_nothing d h x y w :
  prng h = percall ->
  invalid_parameters d x y ->
  call_of transform d h x y w = Return NaN w /\
  calls (world_of (call_of transform d h x y w)) = calls w /\
  forall x' y',
    (call_of transform d h x y ;;; call_of transform d h x' y') w =
    call_of transform d h x' y' w.
Proof.
  intros Hp Hi.
  assert (Hc : call_of transform d h x y w = Return NaN w)
    by (by rewrite call_of_percall, sampler_of_invalid).
  split; [done|]. split; [by rewrite Hc|].
  intros x' y'. unfold bind. by rewrite Hc.
Qed.

(** C3.  On every handle made with a [prng] option, the properties
    [seed], [seedLength], [state], [stateLength] and [byteLength] read as
    [null], in whatever store they are read. *)
Theorem external_source_properties_are_null d arguments w h w' :
  hasOwnProp (options_of arguments) "prng" = true ->
  factory_of d arguments w = Return h w' ->
  forall u,
    Factory.seed h u = Return VNull u /\
    Factory.seedLength h u = Return VNull u /\
    Factory.state h u = Return VNull u /\
    Factory.stateLength h u = Return VNull u /\
    Factory.byteLength h u = Return VNull u.
Proof.
  intros Hp Hf u. rewrite factory_of_unfold in Hf.
  apply factory_prng in Hf as (_ & Ho & _); [|done].
  unfold Factory.seed, Factory.seedLength, Factory.state, Factory.stateLength,
    Factory.byteLength. by rewrite Ho.
Qed.

(** C10.  On every handle made with a [prng] option, assigning to
    [state] does nothing: it does not throw, it leaves the store as it
    was, [state] read afterwards is still [null], and a call made
    afterwards behaves as it would have without the assignment. *)
Theorem external_source_state_setter_is_noop d arguments w h w' :
  hasOwnProp (options_of arguments) "prng" = true ->
  factory_of d arguments w = Return h w' ->
  forall s u,
    Factory.set_state h s u = Return tt u /\
    (Factory.set_state h s ;;; Factory.state h) u = Return VNull u /\
    forall x y,
      (Factory.set_state h s ;;; call_of transform d h x y) u =
      call_of transform d h x y u.
Proof.
  intros Hp Hf s u. rewrite factory_of_unfold in Hf.
  apply factory_prng in Hf as (_ & Ho & _); [|done].
  unfold Factory.set_state, Factory.state, bind. rewrite Ho. done.
Qed.

(** C4.  A factory call that binds parameters ([factory( p, q, ... )])
    throws a [TypeError] when the parameters are invalid, before anything
    is created: the store at the throw is the store of the call. *)
Theorem invalid_bound_parameters_throw d p q rest w :
  invalid_bound d p q ->
  exists msg, factory_of d (p :: q :: rest) w = Throw (TypeError msg) w.
Proof.
  intros Hi. apply validate_invalid in Hi as [msg Hv]. exists msg.
  rewrite factory_of_unfold. unfold Factory.factory. by rewrite Hv.
Qed.

(** *** Serialization *)

Lemma state_of_normalized h i u st :
  rand h = Normalized i ->
  state_of h u = Some st ->
  exists g, gens u !! i = Some g /\ heap u !! STATE g = Some st.
Proof.
  unfold state_of, storage_of, generator_of. intros -> Hs. simpl in Hs.
  destruct (gens u !! i) as [g|]; [|done]. simpl in Hs. eauto.
Qed.

Lemma fresh_loc_ne (hp : gmap nat (list Z)) l st :
  hp !! l = Some st -> fresh (dom hp) ≠ l.
Proof.
  intros Hl Heq. apply (is_fresh (dom hp)). rewrite Heq.
  apply elem_of_dom. eauto.
Qed.

(** [toJSON] of a handle over a base generator holding the words [st]. *)
Lemma toJSON_normalized h i u st :
  rand h = Normalized i ->
  state_of h u = Some st ->
  exists u',
    Factory.toJSON h u =
    Return (VObject {[ "type" := VString "PRNG";
                       "name" := VString (NAME h);
                       "state" := state_json st;
                       "params" := if isUndefined (param1 h) then VArray []
                                   else VArray [param1 h; param2 h] ]}) u' /\
    state_of h u' = Some st.
Proof.
  intros Hr Hs.
  destruct (state_of_normalized h i u st Hr Hs) as (g & Hg & Hst).
  exists (with_heap (<[fresh (dom (heap u)) := st]> (heap u)) u).
  split.
  - unfold Factory.toJSON, Factory.getState, Factory.base_prop. rewrite Hr.
    unfold mt_state, generator, read, alloc, Factory.typedarray2json, read.
    js_unfold. rewrite Hg. simpl. rewrite Hst. simpl.
    rewrite lookup_insert_eq. reflexivity.
  - unfold state_of, storage_of, generator_of. rewrite Hr. simpl.
    rewrite Hg. simpl. rewrite lookup_insert_ne; [done|].
    by eapply fresh_loc_ne.
Qed.

(** A handle made without a [prng] option has a state to serialize. *)
Lemma factory_has_state d arguments w h w' :
  hasOwnProp (options_of arguments) "prng" = false ->
  factory_of d arguments w = Return h w' ->
  exists i, rand h = Normalized i /\ is_Some (state_of h w').
Proof.
  intros Hp Hf. rewrite factory_of_unfold in Hf.
  apply factory_no_prng in Hf as (_ & i & Hr & _ & Hu); [|done].
  exists i. split; [done|].
  apply randu_effect in Hu as (g & -> & Hg & _ & Hh).
  unfold state_of, storage_of, generator_of. rewrite Hr. simpl.
  rewrite Hg, lookup_insert_eq. simpl.
  destruct Hh as [(_ & st & Hl & ->)|(_ & -> & _ & st & Hl & _)].
  - rewrite lookup_insert_eq. eauto.
  - rewrite Hl. eauto.
Qed.

(** C8.  [toJSON()] on a handle made with a [prng] option returns
    [null].  On any other handle it returns
    [{ type: 'PRNG', name, state, params }], where [state] is the JSON
    form of the generator's current state words and [params] lists the
    bound parameters, and is empty when none were bound; serializing
    leaves the generator state as it was. *)
Theorem toJSON_form d arguments w h w' :
  factory_of d arguments w = Return h w' ->
  if hasOwnProp (options_of arguments) "prng" then
    forall u, Factory.call_toJSON h u = Return VNull u
  else
    is_Some (state_of h w') /\
    forall u st, state_of h u = Some st ->
      exists u',
        Factory.call_toJSON h u =
        Return (VObject {[ "type" := VString "PRNG";
                           "name" := VString (name_of d);
                           "state" := state_json st;
                           "params" := VArray (bound_parameters arguments) ]}) u' /\
        state_of h u' = Some st.
Proof.
  intros Hf. destruct (hasOwnProp (options_of arguments) "prng") eqn:Hp.
  - rewrite factory_of_unfold in Hf.
    apply factory_prng in Hf as (_ & Ho & _); [|done].
    intros u. unfold Factory.call_toJSON. by rewrite Ho.
  - destruct (factory_has_state d arguments w h w' Hp Hf) as (i & Hr & Hs).
    split; [done|]. intros u st Hst.
    rewrite factory_of_unfold in Hf.
    pose proof (factory_fields _ _ _ _ _ _ Hf) as [Hn Hfields].
    apply factory_no_prng in Hf as (Ho & _); [|done].
    destruct (toJSON_normalized h i u st Hr Hst) as (u' & Hj & Hs').
    exists u'. split; [|done].
    unfold Factory.call_toJSON. rewrite Ho, Hj, Hn. do 3 f_equal.
    destruct arguments as [|a [|b rest]]; simpl.
    + destruct Hfields as (-> & _). reflexivity.
    + destruct Hfields as (-> & _). reflexivity.
    + destruct Hfields as (Hv & -> & -> & _).
      by rewrite (validate_defined d a b Hv).
Qed.

(** *** Seeding *)

Lemma randu_seeded opts s w i w' :
  seeded_options opts s ->
  randu [opts] w = Return i w' ->
  exists sd, seed_words s = Some sd /\
    gens w' !! i = Some (mkGenerator (fresh (dom (heap w))) false) /\
    heap w' !! fresh (dom (heap w)) = Some (init_state sd).
Proof.
  intros (Ho & _ & Hst & Hsd & Hs) Hr. unfold randu in Hr.
  rewrite Ho, Hst, Hsd, Hs in Hr. simpl in Hr. unfold bind at 1 in Hr.
  assert (Hc : forall u j u', (if hasOwnProp opts "seed" then
      match seed_words s with
      | Some sd => create (init_state sd)
      | None => throw (TypeError "invalid option. `seed` option is not a valid seed.")
      end else throw (TypeError "")) u = Return j u' ->
    exists sd, seed_words s = Some sd /\
      gens u' !! j = Some (mkGenerator (fresh (dom (heap u))) false) /\
      heap u' !! fresh (dom (heap u)) = Some (init_state sd)).
  { intros u j u' Hc. rewrite Hsd in Hc.
    destruct (seed_words s) as [sd|]; [|discriminate]. exists sd. split; [done|].
    unfold create, alloc, new_generator in Hc. js_unfold. simpl in Hc.
    injection Hc as <- <-. simpl. by rewrite !lookup_insert_eq. }
  rewrite Hsd in Hc.
  destruct (hasOwnProp opts "copy").
  - destruct (getProp opts "copy"); try discriminate. unfold ret at 1 in Hr.
    by apply Hc in Hr.
  - unfold ret at 1 in Hr. by apply Hc in Hr.
Qed.

Lemma options_of_single opts arguments :
  options_of arguments = opts -> isObject opts = true ->
  match options_of arguments with VUndefined => [] | o => [o] end = [opts].
Proof. intros -> Ho. by destruct opts. Qed.

(** A handle made from seeded options starts from the seed's state. *)
Lemma factory_seeded d arguments s w h w' :
  seeded_options (options_of arguments) s ->
  factory_of d arguments w = Return h w' ->
  exists i sd, rand h = Normalized i /\ seed_words s = Some sd /\
    state_of h w' = Some (init_state sd).
Proof.
  intros Hs Hf. rewrite factory_of_unfold in Hf.
  pose proof Hs as (Ho & Hp & _).
  apply factory_no_prng in Hf as (_ & i & Hr & _ & Hu); [|done].
  rewrite (options_of_single _ arguments eq_refl Ho) in Hu.
  destruct (randu_seeded _ _ _ _ _ Hs Hu) as (sd & Hsd & Hg & Hh).
  exists i, sd. split; [done|]. split; [done|].
  unfold state_of, storage_of, generator_of. rewrite Hr. simpl.
  by rewrite Hg.
Qed.

Lemma stream_ext d h h' args : forall st,
  prng h = prng h' -> param1 h = param1 h' -> param2 h = param2 h' ->
  stream transform d h st args = stream transform d h' st args.
Proof.
  intros st Hp H1 H2. revert st.
  assert (Ht : forall x y, call_tree transform d h x y = call_tree transform d h' x y).
  { intros x y. unfold call_tree. by rewrite Hp, H1, H2. }
  induction args as [|[x y] rest IH]; intros st; simpl; [done|].
  by rewrite Ht, IH.
Qed.

Lemma factory_same_fields d arguments w1 h1 w1' w2 h2 w2' :
  factory_of d arguments w1 = Return h1 w1' ->
  factory_of d arguments w2 = Return h2 w2' ->
  prng h1 = prng h2 /\ param1 h1 = param1 h2 /\ param2 h1 = param2 h2.
Proof.
  rewrite factory_of_unfold. intros [_ H1]%factory_fields [_ H2]%factory_fields.
  destruct arguments as [|a [|b rest]].
  - destruct H1 as (-> & -> & ->), H2 as (-> & -> & ->). done.
  - destruct H1 as (-> & -> & ->), H2 as (-> & -> & ->). done.
  - destruct H1 as (_ & -> & -> & ->), H2 as (_ & -> & -> & ->). done.
Qed.

(** The calls of a handle return the [stream] of its current state. *)
Lemma calls_of_state d h i args st w :
  rand h = Normalized i ->
  state_of h w = Some st ->
  exists u,
    calls_of transform d h args w = Return (stream transform d h st args) u.
Proof.
  intros Hr Hs.
  destruct (state_of_normalized h i w st Hr Hs) as (g & Hg & Hst).
  destruct (calls_of_stream transform d h i g args st w Hr Hg Hst) as (n & Hn).
  eauto.
Qed.

(** C1.  Two handles made by the same factory call with the same seed,
    each in a store of its own choosing, return element for element the
    same samples for the same sequence of calls: the samples are
    [stream], a function of the seed's initial state and of the position
    in the sequence alone.  A valid seed is one the factory accepts. *)
Theorem same_seed_same_sequence d arguments s w1 h1 w1' w2 h2 w2' :
  seeded_options (options_of arguments) s ->
  factory_of d arguments w1 = Return h1 w1' ->
  factory_of d arguments w2 = Return h2 w2' ->
  forall args : list (number * number),
  exists sd u1 u2,
    seed_words s = Some sd /\
    calls_of transform d h1 args w1' =
      Return (stream transform d h1 (init_state sd) args) u1 /\
    calls_of transform d h2 args w2' =
      Return (stream transform d h1 (init_state sd) args) u2.
Proof.
  intros Hs H1 H2 args.
  destruct (factory_seeded d arguments s w1 h1 w1' Hs H1) as (i1 & sd & Hr1 & Hsd & Hst1).
  destruct (factory_seeded d arguments s w2 h2 w2' Hs H2) as (i2 & sd' & Hr2 & Hsd' & Hst2).
  assert (sd' = sd) as -> by congruence.
  destruct (factory_same_fields d arguments _ _ _ _ _ _ H1 H2) as (Hp & Hp1 & Hp2).
  destruct (calls_of_state d h1 i1 args _ w1' Hr1 Hst1) as (u1 & Hu1).
  destruct (calls_of_state d h2 i2 args _ w2' Hr2 Hst2) as (u2 & Hu2).
  exists sd, u1, u2. split; [done|]. split; [done|].
  by rewrite (stream_ext d h1 h2 args _ Hp Hp1 Hp2).
Qed.

(** *** Shared state *)

Lemma randu_sharing opts l w i w' :
  sharing_options opts l ->
  randu [opts] w = Return i w' ->
  i = fresh (dom (gens w)) /\
  w' = with_gens (<[i := mkGenerator l true]> (gens w)) w /\
  exists st, heap w !! l = Some st /\ verify_state st = true.
Proof.
  intros (Ho & _ & Hc & Hgc & Hs & Hgs) Hr. unfold randu in Hr.
  rewrite Ho, Hc, Hgc, Hs, Hgs in Hr. simpl in Hr.
  unfold bind, ret, read in Hr.
  destruct (heap w !! l) as [st|]; [|discriminate].
  destruct (verify_state st) eqn:Hv; [|discriminate].
  unfold new_generator in Hr. injection Hr as <- <-. eauto.
Qed.

(** Handles made with [{ 'state': l, 'copy': false }] share the array at
    [l], and making one leaves the arrays and the earlier sharers alone. *)
Lemma factory_shares d arguments l w h w' :
  sharing_options (options_of arguments) l ->
  factory_of d arguments w = Return h w' ->
  shares h l w' /\ heap w' = heap w /\
  forall h0, shares h0 l w -> shares h0 l w' /\ generator_of h0 ≠ generator_of h.
Proof.
  intros Hs Hf. rewrite factory_of_unfold in Hf.
  pose proof Hs as (Ho & Hp & _).
  apply factory_no_prng in Hf as (Hop & i & Hr & _ & Hu); [|done].
  rewrite (options_of_single _ arguments eq_refl Ho) in Hu.
  apply randu_sharing with (l := l) in Hu as (Hi & -> & _); [|done].
  split; [|split; [done|]].
  - split; [done|]. exists i. split; [done|]. simpl. apply lookup_insert_eq.
  - intros h0 (Ho0 & j & Hr0 & Hg0).
    assert (Hne : i ≠ j).
    { intros <-. apply (is_fresh (dom (gens w))). rewrite <- Hi.
      apply elem_of_dom. eauto. }
    split.
    + split; [done|]. exists j. split; [done|]. simpl.
      by rewrite lookup_insert_ne.
    + unfold generator_of. rewrite Hr0, Hr. congruence.
Qed.

Lemma shares_state_of h l w : shares h l w -> state_of h w = heap w !! l.
Proof.
  intros (_ & i & Hr & Hg). unfold state_of, storage_of, generator_of.
  rewrite Hr. simpl. by rewrite Hg.
Qed.

Lemma shares_calls d h l w st args :
  shares h l w -> heap w !! l = Some st ->
  exists u, calls_of transform d h args w = Return (stream transform d h st args) u.
Proof.
  intros Hsh Hl. pose proof Hsh as (_ & i & Hr & _).
  apply (calls_of_state d h i); [done|]. by rewrite (shares_state_of h l).
Qed.

(** C5.  Let [h1] share the state array [l] and be assigned the valid
    state array [ls].  If [ls] is as long as [l], the words of [ls] are
    copied into [l], and every handle sharing [l] (the assigning one
    included) still shares [l] and draws from the new words.  If the
    lengths differ, [h1] alone moves to [ls] and draws from its words,
    while every other handle sharing [l] still shares it and draws from
    the words [l] held before. *)
Theorem shared_state_assignment d h1 l ls cur st w :
  shares h1 l w ->
  heap w !! l = Some cur ->
  heap w !! ls = Some st ->
  verify_state st = true ->
  exists w',
    Factory.set_state h1 (VUint32Array ls) w = Return tt w' /\
    (length st = length cur ->
       forall h, shares h l w ->
         shares h l w' /\ state_of h w' = Some st /\
         forall args, exists u,
           calls_of transform d h args w' =
           Return (stream transform d h st args) u) /\
    (length st ≠ length cur ->
       (shares h1 ls w' /\ state_of h1 w' = Some st /\
        forall args, exists u,
          calls_of transform d h1 args w' =
          Return (stream transform d h1 st args) u) /\
       forall h, shares h l w -> generator_of h ≠ generator_of h1 ->
         shares h l w' /\ state_of h w' = Some cur /\
         forall args, exists u,
           calls_of transform d h args w' =
           Return (stream transform d h cur args) u).
Proof.
  intros (Ho1 & i1 & Hr1 & Hg1) Hcur Hst Hv.
  assert (Hset : Factory.set_state h1 (VUint32Array ls) w =
    Return tt (if Nat.eqb (length st) (length cur)
               then with_heap (<[l := st]> (heap w)) w
               else with_gens (<[i1 := mkGenerator ls true]> (gens w)) w)).
  { unfold Factory.set_state, Factory.setState. rewrite Ho1, Hr1.
    unfold mt_set_state, read, generator, write, set_generator. js_unfold.
    rewrite Hst, Hv. simpl. rewrite Hg1. simpl. rewrite Hcur.
    by destruct (Nat.eqb (length st) (length cur)). }
  eexists. split; [exact Hset|]. split.
  - intros Hlen. apply Nat.eqb_eq in Hlen. rewrite Hlen.
    intros h Hsh.
    assert (Hsh' : shares h l (with_heap (<[l := st]> (heap w)) w)).
    { destruct Hsh as (Ho & i & Hr & Hg). split; [done|]. eauto. }
    assert (Hl : heap (with_heap (<[l := st]> (heap w)) w) !! l = Some st)
      by apply lookup_insert_eq.
    split; [done|]. split; [by rewrite (shares_state_of h l)|].
    intros args. by apply (shares_calls d h l).
  - intros Hlen. apply Nat.eqb_neq in Hlen. rewrite Hlen.
    set (w' := with_gens (<[i1 := mkGenerator ls true]> (gens w)) w).
    split.
    + assert (Hsh1 : shares h1 ls w').
      { split; [done|]. exists i1. split; [done|]. apply lookup_insert_eq. }
      split; [done|]. split; [by rewrite (shares_state_of h1 ls)|].
      intros args. by apply (shares_calls d h1 ls).
    + intros h (Ho & i & Hr & Hg) Hne.
      assert (Hi : i1 ≠ i).
      { intros <-. apply Hne. unfold generator_of. by rewrite Hr, Hr1. }
      assert (Hsh' : shares h l w').
      { split; [done|]. exists i. split; [done|]. simpl.
        by rewrite lookup_insert_ne. }
      split; [done|]. split; [by rewrite (shares_state_of h l)|].
      intros args. by apply (shares_calls d h l).
Qed.

End HandleFacts.

(** *** Interleaved construction and calls *)

Section Interleaving.

Context {E : Type} `{BG : BitGenerator E}.
Variable transform : distribution -> number -> number -> Draws.

(** Making the second generator leaves the first one's state alone, and
    the first one's draws leave the second one's state alone: the two
    sequences agree in whatever order the handles are made and called. *)
Lemma same_seed_interleaved d arguments s w h1 w1 h2 w2 args xs w3 :
  seeded_options (options_of arguments) s ->
  factory_of d arguments w = Return h1 w1 ->
  factory_of d arguments w1 = Return h2 w2 ->
  calls_of transform d h1 args w2 = Return xs w3 ->
  exists u, calls_of transform d h2 args w3 = Return xs u.
Proof.
  intros Hs H1 H2 Hc.
  pose proof Hs as (Ho & Hp & _).
  destruct (factory_same_fields d arguments _ _ _ _ _ _ H1 H2) as (Hp0 & Hp1 & Hp2).
  (* the first generator *)
  pose proof H1 as H1'. rewrite factory_of_unfold in H1'.
  apply factory_no_prng in H1' as (_ & i1 & Hr1 & _ & Hu1); [|done].
  rewrite (options_of_single _ arguments eq_refl Ho) in Hu1.
  destruct (randu_seeded _ _ _ _ _ Hs Hu1) as (sd & Hsd & Hg1 & Hh1).
  set (l1 := fresh (dom (heap w))) in *.
  (* the second generator *)
  pose proof H2 as H2'. rewrite factory_of_unfold in H2'.
  apply factory_no_prng in H2' as (_ & i2 & Hr2 & _ & Hu2); [|done].
  rewrite (options_of_single _ arguments eq_refl Ho) in Hu2.
  destruct (randu_seeded _ _ _ _ _ Hs Hu2) as (sd' & Hsd' & Hg2 & Hh2).
  assert (sd' = sd) as -> by congruence.
  set (l2 := fresh (dom (heap w1))) in *.
  assert (Hl : l2 ≠ l1) by (by eapply fresh_loc_ne).
  apply randu_effect in Hu2 as (g2 & Hi2 & Hgens & _ & Hheap).
  assert (Hi : i2 ≠ i1).
  { rewrite Hi2. intros Heq. apply (is_fresh (dom (gens w1))). rewrite Heq.
    apply elem_of_dom. eauto. }
  (* the first generator in the store the second one was made in *)
  assert (Hg1' : gens w2 !! i1 = Some (mkGenerator l1 false))
    by (by rewrite Hgens, lookup_insert_ne).
  assert (Hh1' : heap w2 !! l1 = Some (init_state sd)).
  { destruct Hheap as [(_ & st & Hst & ->)|(_ & -> & _)]; [|done].
    rewrite lookup_insert_ne; [done|]. by rewrite Hst. }
  destruct (calls_of_stream transform d h1 i1 _ args _ w2 Hr1 Hg1' Hh1')
    as (n & Hn).
  rewrite Hn in Hc. injection Hc as <- <-.
  destruct (calls_of_stream transform d h2 i2 _ args (init_state sd)
              (drawn l1 (stream_state transform d h1 (init_state sd) args) n w2)
              Hr2 Hg2) as (m & Hm).
  { rewrite drawn_heap_ne by done. exact Hh2. }
  eexists. rewrite Hm. by rewrite (stream_ext transform d h1 h2 args _ Hp0 Hp1 Hp2).
Qed.

End Interleaving.

(** ** Strided fills *)

Section StridedFacts.

Import Strided.

Context {E : Type} {A B : Type} `{IA : Indexable A} `{IB : Indexable B}.
Variable sampler : number -> number -> M E number.

Local Open Scope Z_scope.

(** Inside a view, writing through it is writing into its buffer. *)
Lemma set_view (out : gmap Z number) (o len j : Z) (v : number) :
  0 <= j < len ->
  set (mkView out o len) j v = mkView (set out (o + j) v) o len.
Proof.
  intros Hj. cbn [set view_indexable]. unfold in_view. cbn [length_ buffer start].
  replace (0 <=? j) with true by lia. replace (j <? len) with true by lia.
  done.
Qed.

(** Outside a view, nothing is written. *)
Lemma set_outside_view (a : View) (j : Z) (v : number) :
  j < 0 \/ length_ a <= j -> set a j v = a.
Proof.
  intros Hj. cbn [set view_indexable]. unfold in_view.
  destruct (0 <=? j) eqn:H0; [|done].
  replace (j <? length_ a) with false by lia. done.
Qed.

Lemma write_view (ks : list Z) : forall (out : gmap Z number) o len vs,
  Forall (fun k => 0 <= k < len) ks ->
  write (mkView out o len) ks vs = mkView (write out (map (Z.add o) ks) vs) o len.
Proof.
  induction ks as [|k ks IH]; intros out o len vs Hks; [done|].
  destruct vs as [|v vs]; [done|].
  apply Forall_cons in Hks as [Hk Hks]. cbn [write map].
  rewrite set_view by done. by apply IH.
Qed.

Lemma slots_shift (n : nat) : forall i s o off,
  map (Z.add o) (slots n i s off) = slots n i s (o + off).
Proof.
  induction n as [|n IH]; intros i s o off; [done|].
  cbn [slots map]. rewrite IH. f_equal. lia.
Qed.

Lemma slots_in_range (n : nat) : forall i s off len,
  (forall k, i <= k < i + Z.of_nat n -> 0 <= off + k * s < len) ->
  Forall (fun k => 0 <= k < len) (slots n i s off).
Proof.
  induction n as [|n IH]; intros i s off len H; cbn [slots]; constructor.
  - apply H. lia.
  - apply IH. intros k Hk. apply H. lia.
Qed.

(** The slots of a fill are [N] slots, [s] apart, from the offset on. *)
Lemma slots_lookup (n : nat) : forall i s o (k : nat),
  (k < n)%nat -> slots n i s o !! k = Some (o + (i + Z.of_nat k) * s).
Proof.
  induction n as [|n IH]; intros i s o k Hk; [lia|].
  destruct k as [|k]; cbn [slots lookup list_lookup].
  - f_equal. f_equal. lia.
  - change (slots n (i + 1) s o !! k = Some (o + (i + Z.of_nat (S k)) * s)).
    rewrite IH by lia. f_equal. f_equal. lia.
Qed.

(** The view-offset form walks inside its argument: its first index is
    [0] for a stride that is not negative and the last of the [N] indices
    for a negative one. *)
Lemma stride2offset_in_range N s len k :
  (N - 1) * Z.abs s < len -> 0 <= k < N ->
  0 <= stride2offset N s + k * s < len.
Proof.
  intros Hlen Hk. unfold stride2offset.
  destruct (0 <? s) eqn:Hs; nia.
Qed.

Lemma matching_offset_stride2offset N s o :
  matching_offset N s o = o + stride2offset N s.
Proof.
  unfold matching_offset, stride2offset.
  destruct (s <? 0) eqn:H1; destruct (0 <? s) eqn:H2; try lia.
  assert (s = 0) as -> by lia. lia.
Qed.

(** With a stride that is not negative the two forms start at the same
    slot. *)
Lemma matching_offset_forward N s o : 0 <= s -> matching_offset N s o = o.
Proof. intros Hs. unfold matching_offset. by replace (s <? 0) with false by lia. Qed.

(** A fill draws its samples in the order of the logical indices and
    writes each, as it is drawn, to its slot. *)
Lemma loop_writes {Out : Type} `{IO : Indexable Out} (n : nat) :
  forall i (a : A) sa oa (b : B) sb ob (out : Out) so oo w,
  loop sampler n i a sa oa b sb ob out so oo w =
  match samples sampler n i a sa oa b sb ob w with
  | Return vs u => Return (write out (slots n i so oo) vs) u
  | Throw e u => Throw e u
  end.
Proof.
  induction n as [|n IH]; intros i a sa oa b sb ob out so oo w;
    cbn [loop samples slots]; [done|].
  unfold bind, ret.
  destruct (sampler (get a (oa + i * sa)) (get b (ob + i * sb)) w) as [v u|e u];
    [|done].
  rewrite IH.
  by destruct (samples sampler n (i + 1) a sa oa b sb ob u).
Qed.

(** A fill of [N] elements draws [N] samples. *)
Lemma samples_length (n : nat) : forall i (a : A) sa oa (b : B) sb ob w vs u,
  samples sampler n i a sa oa b sb ob w = Return vs u -> length vs = n.
Proof.
  induction n as [|n IH]; intros i a sa oa b sb ob w vs u; cbn [samples];
    unfold bind, ret.
  - by intros [= <- _].
  - destruct (sampler _ _ w) as [v w1|]; [|done].
    destruct (samples sampler n (i + 1) a sa oa b sb ob w1) as [vs' w2|] eqn:Hs;
      [|done].
    intros [= <- _]. cbn. f_equal. by eapply IH.
Qed.

(** C6.  A strided fill with [N <= 0], in either indexing convention,
    returns the output it was given, unchanged, in the store it was called
    in: nothing is written, no sample is drawn, nothing is thrown. *)
Theorem nonpositive_count_fills_nothing {Out : Type} `{IO : Indexable Out}
    (N : Z) (a : A) (sa oa : Z) (b : B) (sb ob : Z) (out : Out) (so oo : Z)
    (w : World E) :
  N <= 0 ->
  strided sampler N a sa b sb out so w = Return out w /\
  ndarray sampler N a sa oa b sb ob out so oo w = Return out w.
Proof.
  intros HN. unfold strided, ndarray.
  replace (Z.to_nat N) with 0%nat by lia. done.
Qed.

(** C7.  With broadcast parameters ([a] and [b] at stride 0), filling [N]
    elements at stride [s] through a view of [out] that starts at [o] and
    holds the [N] elements writes the samples, in the order drawn, to the
    slots [o' + i*s] of [out], and so does the explicit-offset form from
    offset [o']: the same samples in the same slots, the same store
    afterwards, the same error if the sampler throws.  Here [o'] is [o]
    for [s >= 0]; for [s < 0] it is [o + (1-N)*s], as the view-offset form
    then starts at the far end of its [N] elements. *)
Theorem view_offset_matches_explicit_offset
    (N : Z) (a : A) (b : B) (out : gmap Z number) (s o len : Z) (w : World E) :
  (0 < N -> (N - 1) * Z.abs s < len) ->
  match samples sampler (Z.to_nat N) 0 a 0 0 b 0 0 w with
  | Return vs u =>
    strided sampler N a 0 b 0 (mkView out o len) s w =
      Return (mkView (write out (slots (Z.to_nat N) 0 s (matching_offset N s o)) vs)
                     o len) u /\
    ndarray sampler N a 0 0 b 0 0 out s (matching_offset N s o) w =
      Return (write out (slots (Z.to_nat N) 0 s (matching_offset N s o)) vs) u
  | Throw e u =>
    strided sampler N a 0 b 0 (mkView out o len) s w = Throw e u /\
    ndarray sampler N a 0 0 b 0 0 out s (matching_offset N s o) w = Throw e u
  end.
Proof.
  intros Hlen. unfold strided, ndarray.
  assert (H0 : stride2offset N 0 = 0) by (unfold stride2offset; simpl; lia).
  rewrite H0, !loop_writes.
  destruct (samples sampler (Z.to_nat N) 0 a 0 0 b 0 0 w) as [vs u|e u]; [|done].
  split; [|done].
  rewrite write_view, slots_shift, matching_offset_stride2offset; [done|].
  apply slots_in_range. intros k Hk.
  apply stride2offset_in_range; [apply Hlen|]; lia.
Qed.

End StridedFacts.

(** ** Evaluations *)

(** Both seeded handles return the same three samples; the second call,
    with a non-integer shape, returns [NaN] and draws nothing. *)
Example calls_seeded_handle :
  returned (calls_of Demo.transforms erlang Demo.seeded_handle
                     [(2, 1); (2.5, 1); (3, 2)]%float Demo.seeded_world) =
  Some [0.45883392212803842; nan; 0.30274291783826701]%float.
Proof. vm_compute. reflexivity. Qed.

Example calls_second_handle :
  returned (calls_of Demo.transforms erlang Demo.second_handle
                     [(2, 1); (2.5, 1); (3, 2)]%float Demo.second_world) =
  Some [0.45883392212803842; nan; 0.30274291783826701]%float.
Proof. vm_compute. reflexivity. Qed.

(** An explicit-offset fill of three elements at stride 2 from offset 1;
    the second element has an invalid parameter and receives [NaN]. *)
Example ndarray_forward :
  returned
    (Strided.ndarray (sampler_of Demo.transforms kumaraswamy (Normalized 0)) 3
       ({[ 0%Z := 2; 1%Z := -1; 2%Z := 3 ]}%float : gmap Z number) 1 0
       ({[ 0%Z := 1%float ]} : gmap Z number) 0 0
       (∅ : gmap Z number) 2 1 Demo.seeded_world) =
  Some ({[ 1%Z := 0.006443710382820148; 3%Z := nan;
           5%Z := 0.33687626741535615 ]}%float : gmap Z number).
Proof. vm_compute. reflexivity. Qed.

(** The same fill walking backward from offset 5. *)
Example ndarray_backward :
  returned
    (Strided.ndarray (sampler_of Demo.transforms kumaraswamy (Normalized 0)) 3
       ({[ 0%Z := 2; 1%Z := -1; 2%Z := 3 ]}%float : gmap Z number) 1 0
       ({[ 0%Z := 1%float ]} : gmap Z number) 0 0
       (∅ : gmap Z number) (-2) 5 Demo.seeded_world) =
  Some ({[ 5%Z := 0.006443710382820148; 3%Z := nan;
           1%Z := 0.33687626741535615 ]}%float : gmap Z number).
Proof. vm_compute. reflexivity. Qed.

(** The view-offset form on a view starting at 1. *)
Example strided_view :
  returned
    (Strided.strided (sampler_of Demo.transforms kumaraswamy (Normalized 0)) 3
       ({[ 0%Z := 2; 1%Z := -1; 2%Z := 3 ]}%float : gmap Z number) 1
       ({[ 0%Z := 1%float ]} : gmap Z number) 0
       (Strided.mkView ∅ 1 5) 2 Demo.seeded_world) =
  Some (Strided.mkView ({[ 1%Z := 0.006443710382820148; 3%Z := nan;
                           5%Z := 0.33687626741535615 ]}%float) 1 5).
Proof. vm_compute. reflexivity. Qed.

(** The documented call [t( 3, v1, -1, out, 1 )], [v1] the view of the
    last three of six elements: the view is read last element first, as
    the explicit-offset form reads the whole array backward from index 5. *)
Example strided_view_backward :
  Strided.strided Demo.kuma 3 (Strided.mkView Demo.ramp 3 3) (-1) Demo.rate 0
    Demo.zeros 1 Demo.seeded_world =
  Strided.ndarray Demo.kuma 3 Demo.ramp (-1) 5 Demo.rate 0 0
    Demo.zeros 1 0 Demo.seeded_world.
Proof. vm_compute. reflexivity. Qed.

(** ** The theorems on the concrete instance *)

Example factory_seeded_demo :
  factory_of erlang [Demo.seeded] Lehmer.empty_world =
  Return Demo.seeded_handle Demo.seeded_world.
Proof. vm_compute. reflexivity. Qed.

Example factory_second_demo :
  factory_of erlang [Demo.seeded] Demo.seeded_world =
  Return Demo.second_handle Demo.second_world.
Proof. vm_compute. reflexivity. Qed.

Example factory_external_demo :
  factory_of kumaraswamy [Demo.external] Lehmer.empty_world =
  Return Demo.external_handle Lehmer.empty_world.
Proof. vm_compute. reflexivity. Qed.

Example factory_sharing_demo :
  (_ <- factory_of erlang [Demo.sharing] ;; factory_of erlang [Demo.sharing])
    (mkWorld (heap Demo.shared_world) ∅ 0 0) =
  Return Demo.second_sharer Demo.shared_world.
Proof. vm_compute. reflexivity. Qed.

Lemma same_seed_same_sequence_witness :
  exists sd u1 u2,
    seed_words (VNumber 1234) = Some sd /\
    calls_of Demo.transforms erlang Demo.seeded_handle
             [(2, 1); (2.5, 1); (3, 2)]%float Demo.seeded_world =
      Return (stream Demo.transforms erlang Demo.seeded_handle (init_state sd)
                     [(2, 1); (2.5, 1); (3, 2)]%float) u1 /\
    calls_of Demo.transforms erlang Demo.second_handle
             [(2, 1); (2.5, 1); (3, 2)]%float Demo.second_world =
      Return (stream Demo.transforms erlang Demo.seeded_handle (init_state sd)
                     [(2, 1); (2.5, 1); (3, 2)]%float) u2.
Proof.
  apply (same_seed_same_sequence Demo.transforms erlang [Demo.seeded]
           (VNumber 1234) Lehmer.empty_world Demo.seeded_handle Demo.seeded_world
           Demo.seeded_world Demo.second_handle Demo.second_world).
  - repeat split; vm_compute; reflexivity.
  - vm_compute. reflexivity.
  - vm_compute. reflexivity.
Defined.

Lemma invalid_parameters_yield_NaN_witness :
  returned (call_of Demo.transforms erlang Demo.seeded_handle 2 (-1)
                    Demo.seeded_world) = Some NaN /\
  throws (call_of Demo.transforms erlang Demo.seeded_handle 2 (-1)
                  Demo.seeded_world) = false.
Proof.
  apply (invalid_parameters_yield_NaN Demo.transforms erlang Demo.seeded_handle
           2 (-1) Demo.seeded_world).
  - reflexivity.
  - right; right; right; left. reflexivity.
Defined.

Lemma invalid_call_draws_nothing_witness :
  call_of Demo.transforms kumaraswamy Demo.external_handle nan 1
          Lehmer.empty_world = Return NaN Lehmer.empty_world /\
  calls (world_of (call_of Demo.transforms kumaraswamy Demo.external_handle nan 1
                           Lehmer.empty_world)) = calls Lehmer.empty_world /\
  forall x' y',
    (call_of Demo.transforms kumaraswamy Demo.external_handle nan 1 ;;;
     call_of Demo.transforms kumaraswamy Demo.external_handle x' y')
      Lehmer.empty_world =
    call_of Demo.transforms kumaraswamy Demo.external_handle x' y'
            Lehmer.empty_world.
Proof.
  apply (invalid_call_draws_nothing Demo.transforms kumaraswamy
           Demo.external_handle nan 1 Lehmer.empty_world).
  - reflexivity.
  - left. reflexivity.
Defined.

Lemma external_source_properties_are_null_witness :
  Factory.seed Demo.external_handle Demo.seeded_world
    = Return VNull Demo.seeded_world /\
  Factory.seedLength Demo.external_handle Demo.seeded_world
    = Return VNull Demo.seeded_world /\
  Factory.state Demo.external_handle Demo.seeded_world
    = Return VNull Demo.seeded_world /\
  Factory.stateLength Demo.external_handle Demo.seeded_world
    = Return VNull Demo.seeded_world /\
  Factory.byteLength Demo.external_handle Demo.seeded_world
    = Return VNull Demo.seeded_world.
Proof.
  apply (external_source_properties_are_null kumaraswamy [Demo.external]
           Lehmer.empty_world Demo.external_handle Lehmer.empty_world).
  - vm_compute. reflexivity.
  - vm_compute. reflexivity.
Defined.

Lemma external_source_state_setter_is_noop_witness :
  Factory.set_state Demo.external_handle (VUint32Array 0) Demo.seeded_world
    = Return tt Demo.seeded_world /\
  (Factory.set_state Demo.external_handle (VUint32Array 0) ;;;
   Factory.state Demo.external_handle) Demo.seeded_world
    = Return VNull Demo.seeded_world /\
  forall x y,
    (Factory.set_state Demo.external_handle (VUint32Array 0) ;;;
     call_of Demo.transforms kumaraswamy Demo.external_handle x y)
      Demo.seeded_world =
    call_of Demo.transforms kumaraswamy Demo.external_handle x y
            Demo.seeded_world.
Proof.
  apply (external_source_state_setter_is_noop Demo.transforms kumaraswamy
           [Demo.external] Lehmer.empty_world Demo.external_handle
           Lehmer.empty_world).
  - vm_compute. reflexivity.
  - vm_compute. reflexivity.
Defined.

Lemma invalid_bound_parameters_throw_witness :
  exists msg,
    factory_of erlang [VNumber 2.5; VNumber 1; Demo.seeded] Lehmer.empty_world =
    Throw (TypeError msg) Lehmer.empty_world.
Proof.
  apply (invalid_bound_parameters_throw erlang (VNumber 2.5) (VNumber 1)
           [Demo.seeded] Lehmer.empty_world).
  left. reflexivity.
Defined.

Lemma toJSON_form_witness :
  if hasOwnProp (options_of [VNumber 2; VNumber 1; Demo.seeded]) "prng" then
    forall u, Factory.call_toJSON Demo.bound_handle u = Return VNull u
  else
    is_Some (state_of Demo.bound_handle Demo.seeded_world) /\
    forall u st, state_of Demo.bound_handle u = Some st ->
      exists u',
        Factory.call_toJSON Demo.bound_handle u =
        Return (VObject {[ "type" := VString "PRNG";
                           "name" := VString (name_of erlang);
                           "state" := state_json st;
                           "params" := VArray (bound_parameters
                             [VNumber 2; VNumber 1; Demo.seeded]) ]}) u' /\
        state_of Demo.bound_handle u' = Some st.
Proof.
  apply (toJSON_form erlang [VNumber 2; VNumber 1; Demo.seeded]
           Lehmer.empty_world Demo.bound_handle Demo.seeded_world).
  vm_compute. reflexivity.
Defined.

Lemma shared_state_assignment_witness :
  exists w',
    Factory.set_state Demo.first_sharer (VUint32Array 2) Demo.shared_world
      = Return tt w' /\
    (length [5%Z; 1%Z; 2%Z] = length [1235%Z; 1234%Z] ->
       forall h, shares h 0 Demo.shared_world ->
         shares h 0 w' /\ state_of h w' = Some [5%Z; 1%Z; 2%Z] /\
         forall args, exists u,
           calls_of Demo.transforms erlang h args w' =
           Return (stream Demo.transforms erlang h [5%Z; 1%Z; 2%Z] args) u) /\
    (length [5%Z; 1%Z; 2%Z] ≠ length [1235%Z; 1234%Z] ->
       (shares Demo.first_sharer 2 w' /\
        state_of Demo.first_sharer w' = Some [5%Z; 1%Z; 2%Z] /\
        forall args, exists u,
          calls_of Demo.transforms erlang Demo.first_sharer args w' =
          Return (stream Demo.transforms erlang Demo.first_sharer
                         [5%Z; 1%Z; 2%Z] args) u) /\
       forall h, shares h 0 Demo.shared_world ->
         generator_of h ≠ generator_of Demo.first_sharer ->
         shares h 0 w' /\ state_of h w' = Some [1235%Z; 1234%Z] /\
         forall args, exists u,
           calls_of Demo.transforms erlang h args w' =
           Return (stream Demo.transforms erlang h [1235%Z; 1234%Z] args) u).
Proof.
  apply (shared_state_assignment Demo.transforms erlang Demo.first_sharer
           0 2 [1235%Z; 1234%Z] [5%Z; 1%Z; 2%Z] Demo.shared_world).
  - split; [reflexivity|]. exists 0. split; vm_compute; reflexivity.
  - vm_compute. reflexivity.
  - vm_compute. reflexivity.
  - reflexivity.
Defined.

Lemma nonpositive_count_fills_nothing_witness :
  Strided.strided (sampler_of Demo.transforms erlang (Normalized 0)) (-1)
    ({[ 0%Z := 2%float ]} : gmap Z number) 0 ({[ 0%Z := 1%float ]} : gmap Z number) 0
    ({[ 0%Z := 7%float ]} : gmap Z number) 1 Demo.seeded_world
    = Return {[ 0%Z := 7%float ]} Demo.seeded_world /\
  Strided.ndarray (sampler_of Demo.transforms erlang (Normalized 0)) (-1)
    ({[ 0%Z := 2%float ]} : gmap Z number) 0 0
    ({[ 0%Z := 1%float ]} : gmap Z number) 0 0
    ({[ 0%Z := 7%float ]} : gmap Z number) 1 0 Demo.seeded_world
    = Return {[ 0%Z := 7%float ]} Demo.seeded_world.
Proof.
  apply (nonpositive_count_fills_nothing
           (sampler_of Demo.transforms erlang (Normalized 0)) (-1)).
  lia.
Defined.

(** Three elements at stride [-2] through the view of [Demo.zeros] that
    starts at element 4: the slots are 8, 6 and 4, as for the
    explicit-offset form from offset 8. *)
Lemma view_offset_matches_explicit_offset_witness :
  ((3 - 1) * Z.abs (-2) < 5)%Z /\
  Strided.strided Demo.kuma 3 Demo.shape 0 Demo.rate 0
    (Strided.mkView Demo.zeros 4 5) (-2) Demo.seeded_world =
    Return (Strided.mkView
              (Strided.write Demo.zeros [8; 6; 4]%Z Demo.three_samples) 4 5)
           Demo.after_three /\
  Strided.ndarray Demo.kuma 3 Demo.shape 0 0 Demo.rate 0 0
    Demo.zeros (-2) 8 Demo.seeded_world =
    Return (Strided.write Demo.zeros [8; 6; 4]%Z Demo.three_samples)
           Demo.after_three.
Proof.
  split; [lia|].
  exact (view_offset_matches_explicit_offset Demo.kuma 3 Demo.shape Demo.rate
           Demo.zeros (-2) 4 5 Demo.seeded_world (fun _ => ltac:(lia))).
Defined.

(** The same view-offset fill against the explicit-offset form from the
    start of the view, offset 4: the former writes the slots 8, 6 and 4,
    the latter the slots 4, 2 and 0. *)
Lemma view_offset_differs_for_negative_stride :
  returned (Strided.strided Demo.kuma 3 Demo.shape 0 Demo.rate 0
              (Strided.mkView Demo.zeros 4 5) (-2) Demo.seeded_world) =
    Some (Strided.mkView
            (Strided.write Demo.zeros [8; 6; 4]%Z Demo.three_samples) 4 5) /\
  returned (Strided.ndarray Demo.kuma 3 Demo.shape 0 0 Demo.rate 0 0
              Demo.zeros (-2) 4 Demo.seeded_world) =
    Some (Strided.write Demo.zeros [4; 2; 0]%Z Demo.three_samples) /\
  Strided.strided Demo.kuma 3 Demo.shape 0 Demo.rate 0
    (Strided.mkView Demo.zeros 4 5) (-2) Demo.seeded_world <>
  match Strided.ndarray Demo.kuma 3 Demo.shape 0 0 Demo.rate 0 0
          Demo.zeros (-2) 4 Demo.seeded_world with
  | Return r u => Return (Strided.mkView r 4 5) u
  | Throw e u => Throw e u
  end.
Proof.
  split; [vm_compute; reflexivity|]. split; [vm_compute; reflexivity|].
  intros H.
  apply (f_equal (fun c => match returned c with
                           | Some v => PrimFloat.eqb (Strided.get v 4) 0
                           | None => false
                           end)) in H.
  vm_compute in H. discriminate.
Qed.

(* ================================================================== *)
(** * Further properties of the factories *)
(* ================================================================== *)

(** ** Numbers *)

(** A number is positive, or [NaN], or [<= 0.0]. *)
Lemma not_positive_cases (x : number) :
  Number.positive x = false -> isnan x = true \/ nonpositive x = true.
Proof.
  unfold isnan, Number.positive, nonpositive.
  rewrite FloatAxioms.eqb_spec, FloatAxioms.leb_spec, FloatAxioms.ltb_spec,
    Prim2SF_zero.
  unfold SFeqb, SFleb, SFltb.
  destruct (Prim2SF x) as [s|s| |s m e]; simpl; try destruct s; simpl;
    intros; try discriminate; auto.
Qed.

Lemma positive_not_nonpositive (x : number) :
  Number.positive x = true -> nonpositive x = false.
Proof.
  intros Hp. destruct (nonpositive x) eqn:Hn; [|done].
  apply nonpositive_not_positive in Hn. congruence.
Qed.

Lemma positive_not_nan (x : number) :
  Number.positive x = true -> isnan x = false.
Proof.
  unfold isnan, Number.positive.
  rewrite FloatAxioms.eqb_spec, FloatAxioms.ltb_spec, Prim2SF_zero.
  unfold SFeqb, SFltb.
  destruct (Prim2SF x) as [s|s| |s m e]; simpl; try destruct s; simpl;
    intros; try discriminate; try done.
  rewrite Z.compare_refl, Pos.compare_refl. done.
Qed.

Section FactoryEdges.

Context {E : Type} `{BG : BitGenerator E}.
Variable transform : distribution -> number -> number -> Draws.

Implicit Types (w u : World E) (v opts p q s : value E) (h : Handle E).
Implicit Types (d : distribution).

(** The guard of the per-call sampler, in terms of validity. *)
Lemma guard_valid d x y :
  match d with
  | erlang => isnan x || isnan y || negb (isPositiveInteger x) || nonpositive y
  | kumaraswamy => isnan x || isnan y || nonpositive x || nonpositive y
  end = negb (valid_parameters d x y).
Proof.
  destruct d; simpl.
  - destruct (isPositiveInteger x) eqn:Hx; simpl.
    + assert (Hpx : Number.positive x = true)
        by (unfold isPositiveInteger in Hx; by apply andb_true_iff in Hx as [_ ?]).
      rewrite (positive_not_nan x Hpx). simpl.
      destruct (Number.positive y) eqn:Hy; simpl.
      * by rewrite (positive_not_nan y Hy), (positive_not_nonpositive y Hy).
      * destruct (not_positive_cases y Hy) as [-> | ->]; [done|].
        by rewrite orb_true_r.
    + by rewrite orb_true_r.
  - destruct (Number.positive x) eqn:Hx; simpl.
    + rewrite (positive_not_nan x Hx), (positive_not_nonpositive x Hx). simpl.
      destruct (Number.positive y) eqn:Hy; simpl.
      * by rewrite (positive_not_nan y Hy), (positive_not_nonpositive y Hy).
      * destruct (not_positive_cases y Hy) as [-> | ->]; [done|].
        by rewrite orb_true_r.
    + destruct (not_positive_cases x Hx) as [-> | ->]; [done|].
      by rewrite !orb_true_r.
Qed.

(** X4.  The per-call samplers [erlang2] and [kumaraswamy2] return [NaN]
    without touching their source exactly when the parameters are not
    valid; valid parameters (a positive integer [k] and a positive
    [lambda]; positive [a] and [b]) always reach the transform. *)
Theorem percall_sampler_by_validity d (r : @uniform E) x y w :
  sampler_of transform d r x y w =
  if valid_parameters d x y then sample r (transform d x y) w
  else Return NaN w.
Proof.
  pose proof (guard_valid d x y) as Hg.
  destruct d; simpl in *.
  - unfold Erlang.erlang2. rewrite Hg.
    by destruct (isPositiveInteger x && Number.positive y).
  - unfold Kumaraswamy.kumaraswamy2. rewrite Hg.
    by destruct (Number.positive x && Number.positive y).
Qed.

(** *** Rejected options *)

(** X1.  A factory call whose options argument (the only argument, or
    the third after two accepted parameters) is not a plain object throws
    a [TypeError] and creates nothing. *)
Theorem factory_rejects_non_object_options d arguments w :
  isObject (options_of arguments) = false ->
  (exists opts, arguments = [opts]) \/
  (exists p q opts rest,
     arguments = p :: q :: opts :: rest /\ validate_of d p q = None) ->
  exists msg, factory_of d arguments w = Throw (TypeError msg) w.
Proof.
  intros Ho Hshape. rewrite factory_of_unfold. unfold Factory.factory.
  destruct Hshape as [[opts ->] | (p & q & opts & rest & -> & Hv)]; simpl in Ho.
  - unfold bind, Factory.resolve. rewrite Ho. simpl. eauto.
  - rewrite Hv. unfold bind, Factory.resolve. rewrite Ho. simpl. eauto.
Qed.

(** X2.  A factory call whose options have an own [prng] property that
    is not a function throws a [TypeError] and creates nothing, whatever
    the other options are. *)
Theorem factory_rejects_non_function_prng d arguments w :
  hasOwnProp (options_of arguments) "prng" = true ->
  isFunction (getProp (options_of arguments) "prng") = false ->
  (exists opts, arguments = [opts]) \/
  (exists p q opts rest,
     arguments = p :: q :: opts :: rest /\ validate_of d p q = None) ->
  exists msg, factory_of d arguments w = Throw (TypeError msg) w.
Proof.
  intros Hp Hf Hshape. rewrite factory_of_unfold. unfold Factory.factory.
  assert (Hres : forall opts, hasOwnProp opts "prng" = true ->
    isFunction (getProp opts "prng") = false ->
    exists msg, Factory.resolve opts w = Throw (TypeError msg) w).
  { intros opts Hp' Hf'. unfold Factory.resolve.
    destruct (isObject opts); simpl; [|by eauto].
    rewrite Hp', Hf'. simpl. eauto. }
  destruct Hshape as [[opts ->] | (p & q & opts & rest & -> & Hv)];
    simpl in Hp, Hf; destruct (Hres opts Hp Hf) as [msg Hr]; exists msg.
  - unfold bind. by rewrite Hr.
  - rewrite Hv. unfold bind. by rewrite Hr.
Qed.

(** *** A [prng] option *)

(** X3.  With a function as [prng] option the factory returns at once:
    no generator is created, the store is untouched, the other options
    ([seed], [state], [copy]) are not even looked at, and the handle
    returned samples from that function and exposes it as [PRNG]. *)
Theorem factory_with_prng_creates_nothing d arguments f w :
  isObject (options_of arguments) = true ->
  getProp (options_of arguments) "prng" = VFunction f ->
  (exists opts, arguments = [opts]) \/
  (exists p q opts rest,
     arguments = p :: q :: opts :: rest /\ validate_of d p q = None) ->
  factory_of d arguments w =
  Return (mkHandle E (if length arguments <? 2 then percall else bound)
                   (name_of d)
                   (nth 0 (bound_parameters arguments) VUndefined)
                   (nth 1 (bound_parameters arguments) VUndefined)
                   (Foreign f) (Foreign f) true) w.
Proof.
  intros Ho Hf Hshape. rewrite factory_of_unfold. unfold Factory.factory.
  assert (Hres : forall opts, isObject opts = true ->
    getProp opts "prng" = VFunction f ->
    Factory.resolve opts w = Return (Foreign f) w).
  { intros opts Ho' Hf'. unfold Factory.resolve. rewrite Ho'. simpl.
    assert (Hp : hasOwnProp opts "prng" = true).
    { destruct opts; try discriminate. simpl in *.
      apply bool_decide_eq_true. destruct (props !! "prng"); [eauto|discriminate]. }
    rewrite Hp, Hf'. reflexivity. }
  destruct Hshape as [[opts ->] | (p & q & opts & rest & -> & Hv)];
    simpl in Ho, Hf.
  - unfold bind. rewrite (Hres opts Ho Hf). unfold ret.
    by rewrite (finish_prng _ _ _ _ _ Hf Ho).
  - rewrite Hv. unfold bind. rewrite (Hres opts Ho Hf). unfold ret.
    rewrite (finish_prng _ _ _ _ _ Hf Ho). simpl.
    by rewrite (validate_defined d p q Hv).
Qed.

(** *** Bound and per-call parameters *)

(** X5.  Binding valid parameters at creation or passing them at each
    call is the same thing: made from the same options in the same store,
    [factory( k, lambda, opts )] and [factory( opts )] leave the same
    store, and a call of the former returns what the latter returns when
    called with [( k, lambda )]. *)
Theorem bound_agrees_with_percall d x y arguments w hb wb hp wp :
  valid_parameters d x y = true ->
  factory_of d (VNumber x :: VNumber y :: arguments) w = Return hb wb ->
  factory_of d (without_parameters (VNumber x :: VNumber y :: arguments)) w
    = Return hp wp ->
  wb = wp /\
  forall x' y' u,
    call_of transform d hb x' y' u = call_of transform d hp x y u.
Proof.
  intros Hvalid Hb Hp. rewrite factory_of_unfold in Hb, Hp.
  assert (Hcalls : forall hb hp,
    prng hb = bound -> param1 hb = VNumber x -> param2 hb = VNumber y ->
    prng hp = percall -> rand hb = rand hp ->
    forall x' y' u,
      call_of transform d hb x' y' u = call_of transform d hp x y u).
  { intros hb' hp' Hpb H1 H2 Hpp Hr x' y' u.
    rewrite (call_of_percall transform d hp' x y u Hpp).
    rewrite percall_sampler_by_validity, Hvalid, <- Hr.
    destruct d; simpl; unfold Erlang.call, Kumaraswamy.call, Factory.call;
      rewrite Hpb, H1, H2; reflexivity. }
  assert (Hfin : forall opts r,
    let hb := Factory.finish (name_of d) (VNumber x) (VNumber y) opts r in
    let hp := Factory.finish (name_of d) VUndefined VUndefined opts r in
    prng hb = bound /\ param1 hb = VNumber x /\ param2 hb = VNumber y /\
    prng hp = percall /\ rand hb = rand hp).
  { intros opts r. unfold Factory.finish.
    by destruct (truthy opts && truthy (getProp opts "prng")). }
  unfold Factory.factory in Hb, Hp.
  destruct (validate_of d (VNumber x) (VNumber y)); [discriminate|].
  destruct arguments as [|opts rest]; simpl in Hp; unfold bind, ret in Hb, Hp.
  - destruct (randu [] w) as [i w'|]; [|discriminate].
    injection Hb as <- <-. injection Hp as <- <-. split; [done|].
    destruct (Hfin VUndefined (Raw i)) as (? & ? & ? & ? & ?). by apply Hcalls.
  - destruct (Factory.resolve opts w) as [r w'|]; [|discriminate].
    injection Hb as <- <-. injection Hp as <- <-. split; [done|].
    destruct (Hfin opts r) as (? & ? & ? & ? & ?). by apply Hcalls.
Qed.

End FactoryEdges.

(* ================================================================== *)
(** * Properties of the iterator *)
(* ================================================================== *)

Section IteratorFacts.

Context {E : Type} `{BG : BitGenerator E}.

Implicit Types (w u : World E) (c : Iterator.Closure E).

(** X6.  [iterator( options )] throws a [TypeError], before any
    generator is made, when [options] is not a plain object, when it has
    a [normalized] property that is not a boolean, or when it has an
    [iter] property that is not a nonnegative integer. *)
Theorem iterator_rejects_bad_options (options : value E) rest w :
  isObject options = false \/
  (hasOwnProp options "normalized" = true /\
   Iterator.isBoolean (getProp options "normalized") = false) \/
  (hasOwnProp options "iter" = true /\
   Iterator.isNonNegativeInteger (getProp options "iter") = false) ->
  exists msg, Iterator.iterator (options :: rest) w = Throw (TypeError msg) w.
Proof.
  intros Hbad. unfold Iterator.iterator, throw.
  destruct (isObject options); simpl; [|by eauto].
  destruct Hbad as [Ho | [[Hn Hb] | [Hi Hb]]]; [discriminate| |].
  - rewrite Hn, Hb. simpl. eauto.
  - destruct (hasOwnProp options "normalized"
              && negb (Iterator.isBoolean (getProp options "normalized")));
      [by eauto|].
    rewrite Hi, Hb. simpl. eauto.
Qed.

(** *** What one [next] does *)

Lemma call_rand_calls (r : @uniform E) w v w' :
  call_rand r w = Return v w' -> calls w' = S (calls w).
Proof.
  destruct r as [f|g|g|]; simpl.
  - by intros [= <- <-].
  - unfold raw, generator, read, write. js_unfold. simpl.
    destruct (gens w !! g) as [G|]; [|done]. simpl.
    destruct (heap w !! STATE G); [|done]. by intros [= <- <-].
  - unfold normalized, generator, read, write. js_unfold. simpl.
    destruct (gens w !! g) as [G|]; [|done]. simpl.
    destruct (heap w !! STATE G); [|done]. by intros [= <- <-].
  - done.
Qed.

(** X8.  [next()] counts the call in [i] and changes nothing else of the
    iterator.  It reports [{ done: true }] exactly when [return] was
    called before or the count exceeds [opts.iter], and then invokes
    nothing and leaves the store as it was; otherwise it invokes the
    generator exactly once and yields the number that call returned. *)
Theorem next_draws_once_or_not_at_all c w r c' w' :
  Iterator.next c w = Return (r, c') w' ->
  c' = Iterator.mkClosure (Iterator.rand c) (Iterator.opts c)
                          (PrimFloat.add (Iterator.i c) 1) (Iterator.FLG c) /\
  Iterator.done r =
    (Iterator.FLG c
     || PrimFloat.ltb (to_number (getProp (Iterator.opts c) "iter"))
                      (PrimFloat.add (Iterator.i c) 1)) /\
  ((Iterator.done r = true /\ Iterator.value_ r = None /\ w' = w) \/
   (Iterator.done r = false /\
    exists v, Iterator.value_ r = Some (VNumber v) /\
              call_rand (Iterator.rand c) w = Return v w' /\
              calls w' = S (calls w))).
Proof.
  unfold Iterator.next. js_unfold. cbn [Iterator.i].
  destruct (Iterator.FLG c
            || PrimFloat.ltb (to_number (getProp (Iterator.opts c) "iter"))
                 (PrimFloat.add (Iterator.i c) 1)).
  - intros [= <- <- <-]. simpl. split; [done|]. split; [done|]. by left.
  - destruct (call_rand (Iterator.rand c) w) as [v u|] eqn:Hc; [|done].
    intros [= <- <- <-]. simpl. split; [done|]. split; [done|]. right.
    split; [done|]. exists v. split; [done|]. split; [done|].
    by eapply call_rand_calls.
Qed.

(** *** Finishing *)

Lemma next_finished c w :
  Iterator.FLG c = true ->
  Iterator.next c w =
  Return (Iterator.mkResult None true,
          Iterator.mkClosure (Iterator.rand c) (Iterator.opts c)
                             (PrimFloat.add (Iterator.i c) 1) true) w.
Proof. intros HF. unfold Iterator.next. rewrite HF. reflexivity. Qed.

Lemma nexts_finished n : forall c w,
  Iterator.FLG c = true ->
  exists c',
    Iterator.nexts n c w = Return (replicate n (Iterator.mkResult None true), c') w /\
    Iterator.FLG c' = true /\ Iterator.rand c' = Iterator.rand c /\
    Iterator.opts c' = Iterator.opts c.
Proof.
  induction n as [|n IH]; intros c w HF; cbn [Iterator.nexts replicate].
  - exists c. by unfold ret.
  - unfold bind at 1. rewrite (next_finished c w HF). cbn [fst snd].
    destruct (IH (Iterator.mkClosure (Iterator.rand c) (Iterator.opts c)
                    (PrimFloat.add (Iterator.i c) 1) true) w eq_refl)
      as (c' & Hn & HF' & Hr & Ho).
    exists c'. unfold bind. rewrite Hn. by unfold ret.
Qed.

(** X7.  Once [return()] was called, with or without a value, every
    later [next()] reports [{ done: true }], however many follow, and
    none of them invokes the generator or changes the store. *)
Theorem finished_stays_finished c arguments n w :
  exists c',
    Iterator.nexts n (snd (Iterator.end_ c arguments)) w =
    Return (replicate n (Iterator.mkResult None true), c') w /\
    Iterator.FLG c' = true.
Proof.
  destruct (nexts_finished n (snd (Iterator.end_ c arguments)) w eq_refl)
    as (c' & Hn & HF & _). eauto.
Qed.

End IteratorFacts.

(** *** Iterating again *)

Section IteratorReplay.

Context {E : Type} `{BG : BitGenerator E}.

Implicit Types (w u : World E) (c : Iterator.Closure E).

(** A generator just made by the base factory has a state array. *)
Lemma randu_live (args : list (value E)) w g w' :
  randu args w = Return g w' ->
  exists G st, gens w' !! g = Some G /\ heap w' !! STATE G = Some st.
Proof.
  intros Hr. apply randu_effect in Hr as (G & -> & Hg & _ & Hh).
  exists G. rewrite Hg, lookup_insert_eq.
  destruct Hh as [(_ & st & _ & ->)|(_ & -> & _ & st & Hl & _)].
  - exists st. by rewrite lookup_insert_eq.
  - eauto.
Qed.

Lemma mt_state_snapshot g G st w :
  gens w !! g = Some G -> heap w !! STATE G = Some st ->
  mt_state g w =
  Return (VUint32Array (fresh (dom (heap w))))
         (with_heap (<[fresh (dom (heap w)) := st]> (heap w)) w).
Proof.
  intros Hg Hs. unfold mt_state, generator, read, alloc. js_unfold.
  rewrite Hg. simpl. by rewrite Hs.
Qed.

Lemma raw_step g G st w :
  gens w !! g = Some G -> heap w !! STATE G = Some st ->
  call_rand (Raw g) w =
  Return (num_of_Z (fst (next st))) (drawn (STATE G) (snd (next st)) 1 w).
Proof.
  intros Hg Hs. unfold call_rand, raw, generator, read, write. js_unfold.
  simpl. rewrite Hg. simpl. rewrite Hs. unfold drawn. simpl.
  f_equal. unfold tick, with_heap. simpl. f_equal. lia.
Qed.

(** The calls of [next] on an iterator over a raw generator return
    [pure_nexts] of its state, and only advance that state. *)
Lemma nexts_pure n : forall c w g G st,
  Iterator.rand c = Raw g ->
  gens w !! g = Some G -> heap w !! STATE G = Some st ->
  exists k,
    Iterator.nexts n c w =
    Return
      ((pure_nexts (to_number (getProp (Iterator.opts c) "iter")) n
                   (Iterator.i c) (Iterator.FLG c) st).1.1,
       Iterator.mkClosure (Raw g) (Iterator.opts c)
         (pure_nexts (to_number (getProp (Iterator.opts c) "iter")) n
                     (Iterator.i c) (Iterator.FLG c) st).1.2
         (Iterator.FLG c))
      (drawn (STATE G)
         (pure_nexts (to_number (getProp (Iterator.opts c) "iter")) n
                     (Iterator.i c) (Iterator.FLG c) st).2 k w).
Proof.
  induction n as [|n IH]; intros c w g G st Hr Hg Hs;
    cbn [Iterator.nexts pure_nexts].
  - exists 0. unfold ret. simpl. rewrite (drawn_id _ _ _ Hs).
    destruct c; simpl in *. by subst.
  - unfold bind at 1. unfold Iterator.next. cbn [Iterator.i Iterator.rand
      Iterator.opts Iterator.FLG].
    set (iter := to_number (getProp (Iterator.opts c) "iter")).
    destruct (Iterator.FLG c || PrimFloat.ltb iter (PrimFloat.add (Iterator.i c) 1))
      eqn:Hdone.
    + unfold ret at 1. cbn [fst snd].
      destruct (IH (Iterator.mkClosure (Iterator.rand c) (Iterator.opts c)
                      (PrimFloat.add (Iterator.i c) 1) (Iterator.FLG c))
                   w g G st Hr Hg Hs) as (k & Hn).
      cbn [Iterator.i Iterator.rand Iterator.opts Iterator.FLG] in Hn.
      fold iter in Hn. exists k. unfold bind. rewrite Hn. unfold ret.
      destruct (pure_nexts iter n (PrimFloat.add (Iterator.i c) 1)
                           (Iterator.FLG c) st) as [[rs j] st'].
      reflexivity.
    + unfold bind at 1. rewrite Hr, (raw_step g G st w Hg Hs). unfold ret at 1.
      cbn [fst snd].
      destruct (IH (Iterator.mkClosure (Raw g) (Iterator.opts c)
                      (PrimFloat.add (Iterator.i c) 1) (Iterator.FLG c))
                   (drawn (STATE G) (snd (next st)) 1 w) g G (snd (next st))
                   eq_refl Hg (drawn_heap_eq _ _ _ _)) as (k & Hn).
      cbn [Iterator.i Iterator.rand Iterator.opts Iterator.FLG] in Hn.
      fold iter in Hn. exists (1 + k). unfold bind. rewrite Hn. unfold ret.
      rewrite drawn_drawn.
      destruct (pure_nexts iter n (PrimFloat.add (Iterator.i c) 1)
                           (Iterator.FLG c) (snd (next st))) as [[rs j] st'].
      reflexivity.
Qed.

(** What [iterator()] leaves: a raw generator, and in [opts] the bound
    [MAX_VALUE] and a snapshot of the generator's initial state. *)
Lemma iterator_default w c w1 :
  Iterator.iterator [] w = Return c w1 ->
  exists g G l st,
    c = Iterator.mkClosure (Raw g)
          (VObject {[ "iter" := VNumber Iterator.MAX_VALUE;
                      "state" := VUint32Array l ]}) 0 false /\
    gens w1 !! g = Some G /\ heap w1 !! STATE G = Some st /\
    heap w1 !! l = Some st /\ l ≠ STATE G.
Proof.
  unfold Iterator.iterator. unfold bind at 1.
  destruct (randu [] w) as [g w'|] eqn:Hr; [|done].
  destruct (randu_live _ _ _ _ Hr) as (G & st & Hg & Hs).
  unfold bind. rewrite (mt_state_snapshot g G st w' Hg Hs). unfold ret.
  intros [= <- <-]. exists g, G, (fresh (dom (heap w'))), st.
  split; [done|]. simpl. rewrite lookup_insert_eq.
  assert (Hne : fresh (dom (heap w')) ≠ STATE G) by (by eapply fresh_loc_ne).
  by rewrite lookup_insert_ne.
Qed.

Lemma MAX_VALUE_nonnegative_integer :
  Iterator.isNonNegativeInteger (E := E) (VNumber Iterator.MAX_VALUE) = true.
Proof. vm_compute. reflexivity. Qed.

(** X9.  The iterator made by [iterator()] is iterable from the start
    again: however far it has been advanced, the iterator its [factory]
    method returns yields the very results the original yielded from its
    creation on.  (The snapshot cached in [opts.state] must be a state the
    base factory accepts.) *)
Theorem iterating_again_replays n w c w1 st rs c' w2 :
  Iterator.iterator [] w = Return c w1 ->
  source_state (Iterator.rand c) w1 = Some st ->
  verify_state st = true ->
  Iterator.nexts n c w1 = Return (rs, c') w2 ->
  exists c2 w3 c2' w4,
    Iterator.factory c' w2 = Return c2 w3 /\
    Iterator.i c2 = 0%float /\ Iterator.FLG c2 = false /\
    source_state (Iterator.rand c2) w3 = Some st /\
    Iterator.nexts n c2 w3 = Return (rs, c2') w4.
Proof.
  intros Hit Hst Hv Hn.
  destruct (iterator_default w c w1 Hit) as (g & G & l & st0 & -> & Hg & Hs & Hl & Hne).
  simpl in Hst. rewrite Hg in Hst. simpl in Hst.
  assert (st0 = st) as -> by congruence.
  (* the original run *)
  set (opts := VObject {[ "iter" := VNumber Iterator.MAX_VALUE;
                          "state" := VUint32Array l ]}) in *.
  assert (Hiter : getProp opts "iter" = VNumber Iterator.MAX_VALUE) by reflexivity.
  match type of Hn with
  | Iterator.nexts _ ?c0 _ = _ =>
    destruct (nexts_pure n c0 w1 g G st eq_refl Hg Hs) as (k & Hpure)
  end.
  cbn [Iterator.opts Iterator.i Iterator.FLG] in Hpure.
  rewrite Hiter in Hpure. cbn [to_number] in Hpure.
  set (run := pure_nexts Iterator.MAX_VALUE n 0 false st) in *.
  rewrite Hpure in Hn. clear Hpure.
  assert (rs = run.1.1) as -> by congruence.
  assert (c' = Iterator.mkClosure (Raw g) opts run.1.2 false) as -> by congruence.
  assert (w2 = drawn (STATE G) run.2 k w1) as -> by congruence.
  clear Hn.
  set (w2 := drawn (STATE G) run.2 k w1).
  assert (Hl2 : heap w2 !! l = Some st).
  { unfold w2. rewrite drawn_heap_ne by done. exact Hl. }
  (* the base factory, given the cached options *)
  assert (Hrandu : randu [opts] w2 = create st w2).
  { unfold randu.
    change (isObject opts) with true.
    change (hasOwnProp opts "copy") with false.
    change (hasOwnProp opts "state") with true.
    change (getProp opts "state") with (VUint32Array (E := E) l).
    cbn [negb]. unfold bind, ret, read. by rewrite Hl2, Hv. }
  set (l2 := fresh (dom (heap w2))).
  set (g2 := fresh (dom (gens w2))).
  set (w2' := with_gens (<[g2 := mkGenerator l2 false]> (gens w2))
                        (with_heap (<[l2 := st]> (heap w2)) w2)).
  assert (Hcreate : create st w2 = Return g2 w2') by reflexivity.
  assert (Hg2 : gens w2' !! g2 = Some (mkGenerator l2 false))
    by apply lookup_insert_eq.
  assert (Hs2 : heap w2' !! STATE (mkGenerator l2 false) = Some st)
    by apply lookup_insert_eq.
  set (l3 := fresh (dom (heap w2'))).
  set (w3 := with_heap (<[l3 := st]> (heap w2')) w2').
  set (opts2 := Iterator.setProp opts "state" (VUint32Array l3)).
  set (c2 := Iterator.mkClosure (Raw g2) opts2 0 false).
  assert (Hfac : Iterator.factory (Iterator.mkClosure (Raw g) opts run.1.2 false) w2
                 = Return c2 w3).
  { unfold Iterator.factory, Iterator.iterator. cbn [Iterator.opts].
    change (isObject opts) with true.
    change (hasOwnProp opts "normalized") with false.
    change (hasOwnProp opts "iter") with true.
    rewrite Hiter, MAX_VALUE_nonnegative_integer. cbn [negb andb].
    unfold bind at 1. rewrite Hrandu, Hcreate.
    change (Iterator.copy_not_false opts) with true.
    unfold bind. rewrite (mt_state_snapshot g2 _ st w2' Hg2 Hs2). reflexivity. }
  assert (Hne3 : l3 ≠ l2) by (by eapply fresh_loc_ne).
  assert (Hg3 : gens w3 !! g2 = Some (mkGenerator l2 false)) by exact Hg2.
  assert (Hs3 : heap w3 !! STATE (mkGenerator l2 false) = Some st).
  { unfold w3. simpl. by rewrite lookup_insert_ne. }
  destruct (nexts_pure n c2 w3 g2 _ st eq_refl Hg3 Hs3) as (k2 & Hpure2).
  exists c2, w3. eexists _, _. split; [exact Hfac|].
  split; [done|]. split; [done|]. split.
  - simpl. rewrite lookup_insert_eq. simpl. by rewrite lookup_insert_ne.
  - rewrite Hpure2. reflexivity.
Qed.

End IteratorReplay.

(* ================================================================== *)
(** * Properties of the stream factory *)
(* ================================================================== *)

Section StreamFacts.

Context {E S : Type}.
Variable RandomStream : value E -> value E -> value E -> M E S.

Implicit Types (w : World E) (v m s o : value E).

Lemma assign_returns v w :
  exists props, Streams.assign v w = Return (VObject props) w.
Proof. destruct v; simpl; unfold ret; eauto. Qed.

(** X10.  The stream factory validates nothing: whatever its arguments
    are, it returns a stream creator without throwing, without building a
    stream and without changing the store, and the options it keeps are
    always an object. *)
Theorem stream_factory_always_returns (arguments : list (value E)) w :
  exists props,
    Streams.factory arguments w =
    Return (Streams.mkStreamFactory
              (if Nat.ltb (length arguments) 2
               then Streams.createStream1 else Streams.createStream2)
              (nth 0 arguments VUndefined) (nth 1 arguments VUndefined)
              (VObject props)) w.
Proof.
  unfold Streams.factory, bind.
  destruct (Nat.eqb (length arguments) 1).
  - destruct (assign_returns (nth 0 arguments VUndefined) w) as [props ->].
    unfold ret. eauto.
  - destruct (Nat.ltb 2 (length arguments)).
    + destruct (assign_returns (nth 2 arguments VUndefined) w) as [props ->].
      unfold ret. eauto.
    + unfold ret. eauto.
Qed.

(** X11.  Fixing [mu] and [sigma] at the factory or giving them when the
    stream is created builds the same stream: [factory( mu, sigma,
    options )()] and [factory( options )( mu, sigma )] are the same call
    of the stream constructor, and so are [factory( mu, sigma )()] and
    [factory()( mu, sigma )]. *)
Theorem stream_parameters_bound_or_percall m s (rest ignored : list (value E)) w :
  (f <- Streams.factory (m :: s :: rest) ;; Streams.create RandomStream f ignored) w =
  (f <- Streams.factory (without_parameters (m :: s :: rest)) ;;
   Streams.create RandomStream f [m; s]) w.
Proof.
  destruct rest as [|o rest]; simpl.
  - reflexivity.
  - unfold Streams.factory, bind. simpl.
    destruct (assign_returns o w) as [props ->]. reflexivity.
Qed.

(** X12.  An options argument without own properties ([undefined],
    [null], a boolean, a number, a function) is taken as no options at
    all, silently: a sole such argument is not read as [mu] either. *)
Theorem stream_factory_ignores_primitive_options v m s rest arguments w :
  match v with
  | VUndefined | VNull | VBool _ | VNumber _ | VFunction _ => True
  | _ => False
  end ->
  Streams.factory (m :: s :: v :: rest) w = Streams.factory [m; s] w /\
  (f <- Streams.factory [v] ;; Streams.create RandomStream f arguments) w =
  (f <- Streams.factory [] ;; Streams.create RandomStream f arguments) w.
Proof.
  intros Hv. destruct v; try done.
Qed.

End StreamFacts.

(* ================================================================== *)
(** * Saving and restoring a handle's state *)
(* ================================================================== *)

Section StateRoundTrip.

Context {E : Type} `{BG : BitGenerator E}.
Variable transform : distribution -> number -> number -> Draws.

Implicit Types (w u : World E) (h : Handle E) (d : distribution).

(** X13.  A per-call handle made from the [state] another one returns
    continues that one's sequence: reading [h.state] succeeds, a factory
    call with [{ 'state': h.state }] succeeds when the state is one the
    base factory accepts, and from then on the new handle and [h] return
    the same samples for the same calls, each from a state of its own. *)
Theorem state_option_continues_the_sequence d arguments w0 h w1 u st :
  length arguments < 2 ->
  hasOwnProp (options_of arguments) "prng" = false ->
  factory_of d arguments w0 = Return h w1 ->
  state_of h u = Some st ->
  verify_state st = true ->
  exists sv u1 h2 u2,
    Factory.state h u = Return sv u1 /\
    factory_of d [VObject {[ "state" := sv ]}] u1 = Return h2 u2 /\
    storage_of h2 u2 ≠ storage_of h u2 /\
    forall args, exists v2 v,
      calls_of transform d h2 args u2 =
        Return (stream transform d h st args) v2 /\
      calls_of transform d h args u2 =
        Return (stream transform d h st args) v.
Proof.
  intros Hlen Hp Hf Hst Hv.
  pose proof (factory_percall d arguments w0 h w1 Hlen Hf) as Hprng.
  pose proof Hf as Hf'. rewrite factory_of_unfold in Hf'.
  pose proof (factory_fields _ _ _ _ _ _ Hf') as [_ Hfields].
  assert (Hparams : param1 h = VUndefined /\ param2 h = VUndefined).
  { destruct arguments as [|a [|b rest]]; simpl in Hlen; try lia;
      by destruct Hfields as (? & ? & _). }
  destruct Hparams as [Hp1 Hp2].
  apply factory_no_prng in Hf' as (Hop & i & Hr & _ & _); [|done].
  destruct (state_of_normalized h i u st Hr Hst) as (G & HG & HS).
  (* reading the state *)
  set (l := fresh (dom (heap u))).
  set (u1 := with_heap (<[l := st]> (heap u)) u).
  assert (Hstate : Factory.state h u = Return (VUint32Array l) u1).
  { unfold Factory.state, Factory.getState, Factory.base_prop.
    rewrite Hop, Hr. by apply mt_state_snapshot with (G := G). }
  assert (Hl : l ≠ STATE G) by (by eapply fresh_loc_ne).
  (* making the second handle *)
  set (opts := VObject {[ "state" := VUint32Array (E := E) l ]}).
  set (l2 := fresh (dom (heap u1))).
  set (g2 := fresh (dom (gens u1))).
  set (u2 := with_gens (<[g2 := mkGenerator l2 false]> (gens u1))
                       (with_heap (<[l2 := st]> (heap u1)) u1)).
  set (h2 := mkHandle E percall (name_of d) VUndefined VUndefined
                      (Normalized g2) (Raw g2) false).
  assert (Hrandu : randu [opts] u1 = Return g2 u2).
  { unfold randu.
    change (isObject opts) with true.
    change (hasOwnProp opts "copy") with false.
    change (hasOwnProp opts "state") with true.
    change (getProp opts "state") with (VUint32Array (E := E) l).
    cbn [negb]. unfold bind, ret, read.
    assert (Hl1 : heap u1 !! l = Some st) by apply lookup_insert_eq.
    by rewrite Hl1, Hv. }
  assert (Hmake : factory_of d [opts] u1 = Return h2 u2).
  { rewrite factory_of_unfold. unfold Factory.factory, Factory.resolve.
    change (isObject opts) with true.
    change (hasOwnProp opts "prng") with false.
    cbn [negb]. unfold bind. rewrite Hrandu. reflexivity. }
  assert (Hl2 : l2 ≠ STATE G).
  { apply (fresh_loc_ne (heap u1) (STATE G) st). unfold u1. simpl.
    by rewrite lookup_insert_ne. }
  assert (Hg2 : g2 ≠ i).
  { intros Heq. apply (is_fresh (dom (gens u1))). fold g2. rewrite Heq.
    apply elem_of_dom. eauto. }
  (* the two states in the final store *)
  assert (Hs2 : state_of h2 u2 = Some st).
  { unfold state_of, storage_of, generator_of. simpl.
    rewrite lookup_insert_eq. simpl. by rewrite lookup_insert_eq. }
  assert (Hs1 : state_of h u2 = Some st).
  { unfold state_of, storage_of, generator_of. rewrite Hr. simpl.
    rewrite lookup_insert_ne by done. rewrite HG. simpl.
    rewrite lookup_insert_ne by done. by rewrite lookup_insert_ne. }
  exists (VUint32Array l), u1, h2, u2.
  split; [done|]. split; [done|]. split.
  - unfold storage_of, generator_of. rewrite Hr. simpl.
    rewrite lookup_insert_eq. rewrite lookup_insert_ne by done. rewrite HG.
    simpl. congruence.
  - intros args.
    destruct (calls_of_state transform d h2 g2 args st u2 eq_refl Hs2) as (v2 & Hc2).
    destruct (calls_of_state transform d h i args st u2 Hr Hs1) as (v & Hc).
    exists v2, v. split; [|done].
    rewrite Hc2. f_equal. apply stream_ext; simpl; congruence.
Qed.

(** X14.  Saving [h.state], sampling, assigning the saved state back
    and sampling again returns the same samples twice, whether or not the
    handle shares its state array: the assignment restores the words the
    snapshot was taken from. *)
Theorem state_restore_replays d arguments w0 h w1 u st args :
  hasOwnProp (options_of arguments) "prng" = false ->
  factory_of d arguments w0 = Return h w1 ->
  state_of h u = Some st ->
  verify_state st = true ->
  exists sv u1 xs u2 u3 u4,
    Factory.state h u = Return sv u1 /\
    calls_of transform d h args u1 = Return xs u2 /\
    Factory.set_state h sv u2 = Return tt u3 /\
    calls_of transform d h args u3 = Return xs u4.
Proof.
  intros Hp Hf Hst Hv.
  rewrite factory_of_unfold in Hf.
  apply factory_no_prng in Hf as (Hop & i & Hr & _ & _); [|done].
  destruct (state_of_normalized h i u st Hr Hst) as (G & HG & HS).
  (* the snapshot *)
  set (l := fresh (dom (heap u))).
  set (u1 := with_heap (<[l := st]> (heap u)) u).
  assert (Hstate : Factory.state h u = Return (VUint32Array l) u1).
  { unfold Factory.state, Factory.getState, Factory.base_prop.
    rewrite Hop, Hr. by apply mt_state_snapshot with (G := G). }
  assert (Hl : l ≠ STATE G) by (by eapply fresh_loc_ne).
  assert (HS1 : heap u1 !! STATE G = Some st).
  { unfold u1. simpl. by rewrite lookup_insert_ne. }
  (* the first run *)
  destruct (calls_of_stream transform d h i G args st u1 Hr HG HS1) as (n & Hn).
  set (st' := stream_state transform d h st args) in *.
  set (u2 := drawn (STATE G) st' n u1) in *.
  assert (Hl2 : heap u2 !! l = Some st).
  { unfold u2. rewrite drawn_heap_ne by done. apply lookup_insert_eq. }
  assert (HS2 : heap u2 !! STATE G = Some st') by apply drawn_heap_eq.
  (* the assignment *)
  assert (Hset : exists u3, Factory.set_state h (VUint32Array l) u2 = Return tt u3 /\
                            state_of h u3 = Some st).
  { unfold Factory.set_state, Factory.setState. rewrite Hop, Hr.
    unfold mt_set_state, read, generator, write, set_generator. js_unfold.
    rewrite Hl2, Hv. cbn [negb]. change (gens u2) with (gens u). rewrite HG.
    cbn [STATE]. rewrite HS2.
    unfold state_of, storage_of, generator_of. rewrite Hr.
    destruct (shared G); [destruct (Nat.eqb (length st) (length st'))|];
      eexists; (split; [reflexivity|]); simpl.
    - rewrite HG. simpl. by rewrite lookup_insert_eq.
    - rewrite lookup_insert_eq. simpl. rewrite lookup_insert_ne by done.
      by rewrite lookup_insert_eq.
    - rewrite HG. simpl. by rewrite lookup_insert_eq. }
  destruct Hset as (u3 & Hset & Hst3).
  destruct (calls_of_state transform d h i args st u3 Hr Hst3) as (u4 & Hc).
  exists (VUint32Array l), u1, (stream transform d h st args), u2, u3, u4.
  by repeat split.
Qed.

End StateRoundTrip.

(* ================================================================== *)
(** * The further theorems on the concrete instance *)
(* ================================================================== *)

Example fresh_iterator_made :
  Iterator.iterator [] Lehmer.empty_world =
  Return Samples.fresh_iterator Samples.fresh_world.
Proof. vm_compute. reflexivity. Qed.

Example fresh_iterator_advanced :
  Iterator.nexts 2 Samples.fresh_iterator Samples.fresh_world =
  Return (Samples.advanced_results, Samples.advanced_iterator)
         Samples.advanced_world.
Proof. vm_compute. reflexivity. Qed.

(** The iterator bounded by [iter: 2] yields twice, then is done. *)
Example bounded_iterator_runs :
  returned (Iterator.nexts 4 Samples.bounded Demo.seeded_world) =
  Some ([Iterator.mkResult (Some (VNumber 20756645)) false;
         Iterator.mkResult (Some (VNumber 964581701)) false;
         Iterator.mkResult None true;
         Iterator.mkResult None true],
        Iterator.mkClosure (Raw 0) (VObject {[ "iter" := VNumber 2 ]}) 4 false).
Proof. vm_compute. reflexivity. Qed.

Lemma factory_rejects_non_object_options_witness :
  exists msg,
    factory_of erlang [VNumber 2] Lehmer.empty_world =
    Throw (TypeError msg) Lehmer.empty_world.
Proof.
  apply (factory_rejects_non_object_options erlang [VNumber 2] Lehmer.empty_world).
  - reflexivity.
  - left. by exists (VNumber 2).
Defined.

Lemma factory_rejects_non_function_prng_witness :
  exists msg,
    factory_of kumaraswamy [VNumber 2; VNumber 3; Samples.bad_prng]
               Lehmer.empty_world =
    Throw (TypeError msg) Lehmer.empty_world.
Proof.
  apply (factory_rejects_non_function_prng kumaraswamy
           [VNumber 2; VNumber 3; Samples.bad_prng] Lehmer.empty_world).
  - vm_compute. reflexivity.
  - vm_compute. reflexivity.
  - right. exists (VNumber 2), (VNumber 3), Samples.bad_prng, []. by split.
Defined.

Lemma factory_with_prng_creates_nothing_witness :
  factory_of erlang [VNumber 2; VNumber 1; Samples.prng_and_more]
             Demo.seeded_world =
  Return (mkHandle nat
            (if length [VNumber 2; VNumber 1; Samples.prng_and_more] <? 2
             then percall else bound)
            (name_of erlang)
            (nth 0 (bound_parameters
                      [VNumber 2; VNumber 1; Samples.prng_and_more]) VUndefined)
            (nth 1 (bound_parameters
                      [VNumber 2; VNumber 1; Samples.prng_and_more]) VUndefined)
            (Foreign Lehmer.counter) (Foreign Lehmer.counter) true)
         Demo.seeded_world.
Proof.
  apply (factory_with_prng_creates_nothing erlang
           [VNumber 2; VNumber 1; Samples.prng_and_more] Lehmer.counter
           Demo.seeded_world).
  - reflexivity.
  - vm_compute. reflexivity.
  - right. exists (VNumber 2), (VNumber 1), Samples.prng_and_more, []. by split.
Defined.

Lemma bound_agrees_with_percall_witness :
  Demo.seeded_world = Demo.seeded_world /\
  forall x' y' u,
    call_of Demo.transforms erlang Demo.bound_handle x' y' u =
    call_of Demo.transforms erlang Demo.seeded_handle 2 1 u.
Proof.
  apply (bound_agrees_with_percall Demo.transforms erlang 2 1 [Demo.seeded]
           Lehmer.empty_world Demo.bound_handle Demo.seeded_world
           Demo.seeded_handle Demo.seeded_world).
  - reflexivity.
  - vm_compute. reflexivity.
  - vm_compute. reflexivity.
Defined.

Lemma iterator_rejects_bad_options_witness :
  exists msg,
    Iterator.iterator [Samples.bad_iter] Lehmer.empty_world =
    Throw (TypeError msg) Lehmer.empty_world.
Proof.
  apply (iterator_rejects_bad_options Samples.bad_iter [] Lehmer.empty_world).
  right; right. split; vm_compute; reflexivity.
Defined.

Lemma next_draws_once_or_not_at_all_witness :
  Samples.after_first =
  Iterator.mkClosure (Iterator.rand Samples.bounded) (Iterator.opts Samples.bounded)
                     (PrimFloat.add (Iterator.i Samples.bounded) 1)
                     (Iterator.FLG Samples.bounded) /\
  Iterator.done Samples.first_result =
    (Iterator.FLG Samples.bounded
     || PrimFloat.ltb (to_number (getProp (Iterator.opts Samples.bounded) "iter"))
                      (PrimFloat.add (Iterator.i Samples.bounded) 1)) /\
  ((Iterator.done Samples.first_result = true /\
    Iterator.value_ Samples.first_result = None /\
    Samples.drawn_once = Demo.seeded_world) \/
   (Iterator.done Samples.first_result = false /\
    exists v, Iterator.value_ Samples.first_result = Some (VNumber v) /\
              call_rand (Iterator.rand Samples.bounded) Demo.seeded_world
                = Return v Samples.drawn_once /\
              calls Samples.drawn_once = S (calls Demo.seeded_world))).
Proof.
  apply (next_draws_once_or_not_at_all Samples.bounded Demo.seeded_world
           Samples.first_result Samples.after_first Samples.drawn_once).
  vm_compute. reflexivity.
Defined.

Lemma iterating_again_replays_witness :
  exists c2 w3 c2' w4,
    Iterator.factory Samples.advanced_iterator Samples.advanced_world
      = Return c2 w3 /\
    Iterator.i c2 = 0%float /\ Iterator.FLG c2 = false /\
    source_state (Iterator.rand c2) w3 = Some [2%Z; 1%Z] /\
    Iterator.nexts 2 c2 w3 = Return (Samples.advanced_results, c2') w4.
Proof.
  apply (iterating_again_replays 2 Lehmer.empty_world Samples.fresh_iterator
           Samples.fresh_world [2%Z; 1%Z] Samples.advanced_results
           Samples.advanced_iterator Samples.advanced_world).
  - vm_compute. reflexivity.
  - vm_compute. reflexivity.
  - reflexivity.
  - vm_compute. reflexivity.
Defined.

Lemma stream_factory_ignores_primitive_options_witness :
  Streams.factory [VNumber 0; VNumber 1; VNumber 2; VNull] Lehmer.empty_world =
  Streams.factory [VNumber 0; VNumber 1] Lehmer.empty_world /\
  (f <- Streams.factory [VNumber 2] ;;
   Streams.create Samples.RandomStream f [VNumber 0; VNumber 1]) Lehmer.empty_world =
  (f <- Streams.factory [] ;;
   Streams.create Samples.RandomStream f [VNumber 0; VNumber 1]) Lehmer.empty_world.
Proof.
  apply (stream_factory_ignores_primitive_options Samples.RandomStream
           (VNumber 2) (VNumber 0) (VNumber 1) [VNull]
           [VNumber 0; VNumber 1] Lehmer.empty_world).
  exact I.
Defined.

Lemma state_option_continues_the_sequence_witness :
  exists sv u1 h2 u2,
    Factory.state Demo.seeded_handle Demo.seeded_world = Return sv u1 /\
    factory_of erlang [VObject {[ "state" := sv ]}] u1 = Return h2 u2 /\
    storage_of h2 u2 ≠ storage_of Demo.seeded_handle u2 /\
    forall args, exists v2 v,
      calls_of Demo.transforms erlang h2 args u2 =
        Return (stream Demo.transforms erlang Demo.seeded_handle
                       [1235%Z; 1234%Z] args) v2 /\
      calls_of Demo.transforms erlang Demo.seeded_handle args u2 =
        Return (stream Demo.transforms erlang Demo.seeded_handle
                       [1235%Z; 1234%Z] args) v.
Proof.
  apply (state_option_continues_the_sequence Demo.transforms erlang [Demo.seeded]
           Lehmer.empty_world Demo.seeded_handle Demo.seeded_world
           Demo.seeded_world [1235%Z; 1234%Z]).
  - simpl. lia.
  - vm_compute. reflexivity.
  - vm_compute. reflexivity.
  - vm_compute. reflexivity.
  - reflexivity.
Defined.

Lemma state_restore_replays_witness :
  exists sv u1 xs u2 u3 u4,
    Factory.state Demo.seeded_handle Demo.seeded_world = Return sv u1 /\
    calls_of Demo.transforms erlang Demo.seeded_handle [(2, 1); (3, 2)]%float u1
      = Return xs u2 /\
    Factory.set_state Demo.seeded_handle sv u2 = Return tt u3 /\
    calls_of Demo.transforms erlang Demo.seeded_handle [(2, 1); (3, 2)]%float u3
      = Return xs u4.
Proof.
  apply (state_restore_replays Demo.transforms erlang [Demo.seeded]
           Lehmer.empty_world Demo.seeded_handle Demo.seeded_world
           Demo.seeded_world [1235%Z; 1234%Z]).
  - vm_compute. reflexivity.
  - vm_compute. reflexivity.
  - vm_compute. reflexivity.
  - reflexivity.
Defined.
